(** * Omni-Fix AR: the repair-session orchestrator of [src/App.tsx]

    A shallow embedding of the React component [App]: its ten state
    variables, its refs, its event handlers and the continuations the
    handlers leave behind at every [await], [setTimeout] and callback.

    Conventions.
    - A JavaScript [number] that holds a coordinate is a binary64 value,
      [spec_float] with 53 bits of precision: [-], [/] and [*] round to
      nearest even, a division by zero gives an infinity or NaN.  An
      index into [steps] is a [nat]; the test
      [currentStepIndex < steps.length - 1] is computed in [Z].
    - [string | null] and [T | undefined] are [option].
    - A handler closes over the values of the render that created it.  The
      closed-over [repairPlan] and [currentStepIndex] are explicit
      arguments, named with the suffix [_c].
    - A handler is a computation on the [World]; every [await] parks a
      [Continuation] there and a later [E_resolve] event resumes it. *)

From Stdlib Require Import String Ascii List Bool Arith ZArith QArith Lia.
From Stdlib Require Import SpecFloat.
Import ListNotations.
Local Close Scope Q_scope.
Local Open Scope string_scope.

(** ** Numbers *)

(** A JavaScript [number]: IEEE 754 binary64. *)
Definition number : Type := spec_float.

Module Number.

Definition prec : Z := 53.
Definition emax : Z := 1024.

(** The literal [z], for a whole number [z]. *)
Definition ofZ (z : Z) : number := binary_normalize prec emax z 0 false.

(** [a - b], [a / b] and [a * b]. *)
Definition sub (a b : number) : number := SFsub prec emax a b.
Definition div (a b : number) : number := SFdiv prec emax a b.
Definition mul (a b : number) : number := SFmul prec emax a b.


(** The rational a finite number stands for, to speak of where a point
    lies without rounding. *)
Definition exact (a : number) : Q :=
  match a with
  | S754_finite s m e =>
      let v := if s then Z.neg m else Z.pos m in
      match e with
      | Z0 => inject_Z v
      | Z.pos k => inject_Z (v * Z.pow_pos 2 k)
      | Z.neg k => Qmake v (Pos.pow 2 k)
      end
  | _ => inject_Z 0
  end.

End Number.

(** ** src/types.ts *)

Inductive AppState :=
| INTRO | CAMERA_READY | ANALYZING | REPAIR_GUIDE
| VERIFYING | INSPECTING | COMPLETED | ERROR.

Definition AppState_eqb (a b : AppState) : bool :=
  match a, b with
  | INTRO, INTRO | CAMERA_READY, CAMERA_READY | ANALYZING, ANALYZING
  | REPAIR_GUIDE, REPAIR_GUIDE | VERIFYING, VERIFYING
  | INSPECTING, INSPECTING | COMPLETED, COMPLETED | ERROR, ERROR => true
  | _, _ => false
  end.

Record Coordinates := {
  ymin : number; xmin : number; ymax : number; xmax : number
}.

Inductive CueType := box | arrow | point | none.

Record VisualCue := {
  type : CueType;
  coordinates : Coordinates;
  label : option string;
  direction : option string
}.

Record RepairStep := {
  id : Z;
  title : string;
  instruction : string;
  visualCue : VisualCue;
  toolNeeded : option string;
  safetyWarning : option string
}.

Record RepairPlan := {
  objectName : string;
  issueDiagnosis : string;
  steps : list RepairStep
}.

Inductive Status := Good | Damaged | Unknown.

Record ComponentInfo := {
  name : string;
  function : string;
  status : Status;
  details : string
}.

(** ** The browser around the component *)

(** [{x: number, y: number}] of [inspectorPoint]. *)
Record Point := { x : number; y : number }.

(** [getBoundingClientRect()] of the container. *)
Record DOMRect := {
  left : number; top : number; width : number; height : number
}.

(** What the handlers read from the page at the instant they run.
    [videoRef.current] and [containerRef.current] are elements that may be
    unmounted; [canvasRef.current] carries whether [getContext('2d')]
    succeeds; [toDataURL] is what the canvas encodes once the current video
    frame is drawn on it. *)
Record Dom := {
  videoRef : bool;
  canvasRef : option bool;
  toDataURL : string;
  containerRef : option DOMRect;
  speechSynthesis : bool
}.

(** A media stream, as far as the handlers look into it. *)
Record MediaStream := { getAudioTracks : list string }.

(** A [MediaRecorder]: [recording] is its state, [stop()] on an inactive
    recorder throws. *)
Record MediaRecorder := { recording : bool }.

(** A click carries [clientX]/[clientY]; a touch event carries [touches]. *)
Inductive PointerEvent :=
| MouseEvent (clientX clientY : number)
| TouchEvent (touches : list (number * number)).

(** ** The state variables of [App] (lines 10-23) *)

Record Session := {
  appState : AppState;
  repairPlan : option RepairPlan;
  currentStepIndex : nat;
  errorMsg : option string;
  cameraActive : bool;
  capturedImage : option string;
  isListening : bool;
  assistantResponse : option string;
  inspectorPoint : option Point;
  componentInfo : option ComponentInfo
}.

(** [useState] initial values. *)
Definition initialSession : Session := {|
  appState := INTRO;
  repairPlan := None;
  currentStepIndex := 0;
  errorMsg := None;
  cameraActive := false;
  capturedImage := None;
  isListening := false;
  assistantResponse := None;
  inspectorPoint := None;
  componentInfo := None
|}.

(** ** Continuations

    One constructor per suspension point of [App.tsx], holding what the
    suspended closure has captured. *)
Inductive Continuation :=
| K_getUserMedia
    (* line 36 *)
| K_analyzeImageAndCreatePlan (base64 : string)
    (* line 77 *)
| K_setTimeout (repairPlan_c : option RepairPlan) (currentStepIndex_c : nat)
    (* line 92 *)
| K_verifyRepairStep (base64 : string) (instruction_c : string)
    (repairPlan_c : option RepairPlan) (currentStepIndex_c : nat)
    (* line 101 *)
| K_identifyComponentAtPoint (base64 : string) (xPct yPct : number)
    (objectName_c : string)
    (* line 166 *)
| K_onloadend (repairPlan_c : option RepairPlan) (currentStepIndex_c : nat)
    (* lines 209-213: recorder [onstop], then reader [onloadend] *)
| K_askRepairAssistant (base64Image : string) (base64Audio : option string)
    (instruction_c : string).
    (* line 220 *)

(** What a suspension point is resumed with. *)
Inductive Response :=
| R_stream (stream : MediaStream)
| R_plan (plan : RepairPlan)
| R_elapsed
| R_verdict (completed : bool) (feedback : string)
| R_info (info : ComponentInfo)
| R_readerResult (result : string)
| R_answer (response : string)
| R_rejected.

(** The refs of [App] that the handlers write (lines 25-29), the parked
    continuations, and what has been handed to the speech synthesiser
    (latest first). *)
Record World := {
  session : Session;
  srcObject : option MediaStream;
  mediaRecorderRef : option MediaRecorder;
  audioChunksRef : list string;
  awaiting : list Continuation;
  spoken : list string
}.

Definition initialWorld : World := {|
  session := initialSession;
  srcObject := None;
  mediaRecorderRef := None;
  audioChunksRef := [];
  awaiting := [];
  spoken := []
|}.

(** ** Handlers as computations on the world

    A handler either returns or throws; the state it has written before a
    throw stays written. *)

Inductive Completion (A : Type) :=
| Returned (a : A)
| Threw.
Arguments Returned {A} a.
Arguments Threw {A}.

Definition Handler (A : Type) : Type := World -> Completion A * World.

Definition ret {A} (a : A) : Handler A := fun w => (Returned a, w).

Definition throw {A} : Handler A := fun w => (Threw, w).

Definition bind {A B} (m : Handler A) (k : A -> Handler B) : Handler B :=
  fun w =>
    match m w with
    | (Returned a, w') => k a w'
    | (Threw, w') => (Threw, w')
    end.

Declare Scope handler_scope.
Delimit Scope handler_scope with handler.
Notation "v <- m ;; k" := (bind m (fun v => k))
  (at level 61, m at next level, right associativity) : handler_scope.
Notation "m ;; k" := (bind m (fun _ => k))
  (at level 61, right associativity) : handler_scope.
Local Open Scope handler_scope.

Definition gets {A} (f : World -> A) : Handler A := fun w => (Returned (f w), w).

Definition modify (f : Session -> Session) : Handler unit :=
  fun w =>
    let (s, so, mr, ac, aw, sp) := w in
    (Returned tt, Build_World (f s) so mr ac aw sp).

(** The ten setters returned by [useState].  Each rebuilds the session
    with one variable replaced; the variables are, in order, [appState],
    [repairPlan], [currentStepIndex], [errorMsg], [cameraActive],
    [capturedImage], [isListening], [assistantResponse], [inspectorPoint]
    and [componentInfo]. *)

Definition setAppState (v : AppState) : Handler unit :=
  modify (fun s =>
    let (_, pl, ix, er, ca, im, li, ar, ip, ci) := s in
    Build_Session v pl ix er ca im li ar ip ci).

Definition setRepairPlan (v : option RepairPlan) : Handler unit :=
  modify (fun s =>
    let (st, _, ix, er, ca, im, li, ar, ip, ci) := s in
    Build_Session st v ix er ca im li ar ip ci).

(** [setCurrentStepIndex] is called with an updater ([prev => prev + 1]);
    a plain value [v] is the updater [fun _ => v]. *)
Definition setCurrentStepIndex (f : nat -> nat) : Handler unit :=
  modify (fun s =>
    let (st, pl, ix, er, ca, im, li, ar, ip, ci) := s in
    Build_Session st pl (f ix) er ca im li ar ip ci).

Definition setErrorMsg (v : option string) : Handler unit :=
  modify (fun s =>
    let (st, pl, ix, _, ca, im, li, ar, ip, ci) := s in
    Build_Session st pl ix v ca im li ar ip ci).

Definition setCameraActive (v : bool) : Handler unit :=
  modify (fun s =>
    let (st, pl, ix, er, _, im, li, ar, ip, ci) := s in
    Build_Session st pl ix er v im li ar ip ci).

Definition setCapturedImage (v : option string) : Handler unit :=
  modify (fun s =>
    let (st, pl, ix, er, ca, _, li, ar, ip, ci) := s in
    Build_Session st pl ix er ca v li ar ip ci).

Definition setIsListening (v : bool) : Handler unit :=
  modify (fun s =>
    let (st, pl, ix, er, ca, im, _, ar, ip, ci) := s in
    Build_Session st pl ix er ca im v ar ip ci).

Definition setAssistantResponse (v : option string) : Handler unit :=
  modify (fun s =>
    let (st, pl, ix, er, ca, im, li, _, ip, ci) := s in
    Build_Session st pl ix er ca im li v ip ci).

Definition setInspectorPoint (v : option Point) : Handler unit :=
  modify (fun s =>
    let (st, pl, ix, er, ca, im, li, ar, _, ci) := s in
    Build_Session st pl ix er ca im li ar v ci).

Definition setComponentInfo (v : option ComponentInfo) : Handler unit :=
  modify (fun s =>
    let (st, pl, ix, er, ca, im, li, ar, ip, _) := s in
    Build_Session st pl ix er ca im li ar ip v).

(** Writes to the refs, to the parked continuations and to the
    synthesiser. *)

Definition set_srcObject (v : option MediaStream) : Handler unit :=
  fun w =>
    let (s, _, mr, ac, aw, sp) := w in
    (Returned tt, Build_World s v mr ac aw sp).

Definition set_mediaRecorderRef (v : option MediaRecorder) : Handler unit :=
  fun w =>
    let (s, so, _, ac, aw, sp) := w in
    (Returned tt, Build_World s so v ac aw sp).

Definition set_audioChunksRef (v : list string) : Handler unit :=
  fun w =>
    let (s, so, mr, _, aw, sp) := w in
    (Returned tt, Build_World s so mr v aw sp).

Definition set_awaiting (v : list Continuation) : Handler unit :=
  fun w =>
    let (s, so, mr, ac, _, sp) := w in
    (Returned tt, Build_World s so mr ac v sp).

Definition utter (text : string) : Handler unit :=
  fun w =>
    let (s, so, mr, ac, aw, sp) := w in
    (Returned tt, Build_World s so mr ac aw (text :: sp)).

(** Suspend: the rest of the handler is parked behind the others. *)
Definition await (k : Continuation) : Handler unit :=
  ks <- gets awaiting ;; set_awaiting (ks ++ [k]).

(** [speak] (lines 232-240): the utterance in progress is cancelled and
    the new one started, when the page has a synthesiser. *)
Definition speak (dom : Dom) (text : string) : Handler unit :=
  if speechSynthesis dom then utter text else ret tt.

(** ** Strings *)

(** [s.split(c)] for a one-character separator. *)
Fixpoint split (c : ascii) (s : string) : list string :=
  match s with
  | EmptyString => [EmptyString]
  | String a s' =>
      if Ascii.eqb a c then EmptyString :: split c s'
      else match split c s' with
           | h :: t => String a h :: t
           | [] => [String a EmptyString]
           end
  end.

(** The test [if (!base64)]: [null], [undefined] and the empty string are
    falsy. *)
Definition truthy (v : option string) : option string :=
  match v with
  | Some (String _ _ as s) => Some s
  | _ => None
  end.

(** ** [captureFrame] (lines 49-66) *)
Definition captureFrame (dom : Dom) : option string :=
  if negb (videoRef dom) then None
  else match canvasRef dom with
       | None => None
       | Some ctx =>
           if negb ctx then None
           else
             let dataUrl := toDataURL dom in
             nth_error (split "," dataUrl) 1
       end.

Definition jpegDataUrl (base64 : string) : string :=
  "data:image/jpeg;base64," ++ base64.

(** ** The handlers of [App] *)

(** [startCamera] (lines 32-47), up to [await getUserMedia]. *)
Definition startCamera : Handler unit :=
  setAppState CAMERA_READY ;;
  setCameraActive true ;;
  await K_getUserMedia.

(** ... resumed with the stream (lines 40-42) ... *)
Definition startCamera_resolved (dom : Dom) (stream : MediaStream) : Handler unit :=
  if videoRef dom then set_srcObject (Some stream) else ret tt.

(** ... or in its [catch] (lines 43-46). *)
Definition startCamera_rejected : Handler unit :=
  setErrorMsg (Some "Camera/Mic access denied. Please enable permissions.") ;;
  setAppState ERROR.

(** [handleScan] (lines 68-77), up to [await analyzeImageAndCreatePlan]. *)
Definition handleScan (dom : Dom) : Handler unit :=
  match truthy (captureFrame dom) with
  | None => ret tt
  | Some base64 =>
      setCapturedImage (Some (jpegDataUrl base64)) ;;
      setAppState ANALYZING ;;
      await (K_analyzeImageAndCreatePlan base64)
  end.

(** ... resumed with the plan (lines 78-80) ... *)
Definition handleScan_resolved (plan : RepairPlan) : Handler unit :=
  setRepairPlan (Some plan) ;;
  setCurrentStepIndex (fun _ => 0) ;;
  setAppState REPAIR_GUIDE.

(** ... or in its [catch] (lines 81-85). *)
Definition handleScan_rejected : Handler unit :=
  setErrorMsg (Some "Gemini could not identify the issue. Please try again with better lighting.") ;;
  setAppState ERROR.

(** [handleNextStep] (lines 116-127).  The test reads the closed-over
    index, the update is applied to the index of the moment. *)
Definition handleNextStep (repairPlan_c : option RepairPlan)
    (currentStepIndex_c : nat) : Handler unit :=
  setAssistantResponse None ;;
  match repairPlan_c with
  | None => ret tt
  | Some plan =>
      if (Z.of_nat currentStepIndex_c <? Z.of_nat (length (steps plan)) - 1)%Z
      then
        setCurrentStepIndex (fun prev => prev + 1) ;;
        setCapturedImage None ;;
        setAppState REPAIR_GUIDE
      else setAppState COMPLETED
  end.

(** [handleVerifyStep] (lines 88-92), up to [setTimeout(..., 1500)]. *)
Definition handleVerifyStep (repairPlan_c : option RepairPlan)
    (currentStepIndex_c : nat) : Handler unit :=
  setCapturedImage None ;;
  setAppState VERIFYING ;;
  await (K_setTimeout repairPlan_c currentStepIndex_c).

(** ... the timer callback (lines 93-101), up to [await verifyRepairStep].
    [currentStep.instruction] throws when the index is beyond the steps. *)
Definition handleVerifyStep_timeout (dom : Dom)
    (repairPlan_c : option RepairPlan) (currentStepIndex_c : nat)
    : Handler unit :=
  match truthy (captureFrame dom) with
  | None => setAppState REPAIR_GUIDE
  | Some base64 =>
      match repairPlan_c with
      | None => ret tt
      | Some plan =>
          match nth_error (steps plan) currentStepIndex_c with
          | None => throw
          | Some currentStep =>
              await (K_verifyRepairStep base64 (instruction currentStep)
                       repairPlan_c currentStepIndex_c)
          end
      end
  end.

(** ... resumed with the verdict (lines 103-111). *)
Definition handleVerifyStep_resolved (dom : Dom) (base64 : string)
    (repairPlan_c : option RepairPlan) (currentStepIndex_c : nat)
    (completed : bool) (feedback : string) : Handler unit :=
  if completed then handleNextStep repairPlan_c currentStepIndex_c
  else
    setAssistantResponse (Some ("Verification Info: " ++ feedback)) ;;
    speak dom feedback ;;
    setAppState REPAIR_GUIDE ;;
    setCapturedImage (Some (jpegDataUrl base64)).

(** The percentage coordinates of a tap (lines 145-151). *)
Definition xPct (clientX : number) (rect : DOMRect) : number :=
  let x := Number.sub clientX (left rect) in
  Number.mul (Number.div x (width rect)) (Number.ofZ 100).

Definition yPct (clientY : number) (rect : DOMRect) : number :=
  let y := Number.sub clientY (top rect) in
  Number.mul (Number.div y (height rect)) (Number.ofZ 100).

(** Lines 135-142: the first touch, or the mouse position.  [touches[0]]
    of an empty list is [undefined] and reading [clientX] from it throws. *)
Definition clientXY (e : PointerEvent) : option (number * number) :=
  match e with
  | TouchEvent touches => nth_error touches 0
  | MouseEvent clientX clientY => Some (clientX, clientY)
  end.

(** [handleVideoClick] (lines 130-166), up to
    [await identifyComponentAtPoint]. *)
Definition handleVideoClick (dom : Dom) (appState_c : AppState)
    (repairPlan_c : option RepairPlan) (e : PointerEvent) : Handler unit :=
  match AppState_eqb appState_c REPAIR_GUIDE, repairPlan_c with
  | true, Some plan =>
      match clientXY e with
      | None => throw
      | Some (clientX, clientY) =>
          match containerRef dom with
          | None => ret tt
          | Some rect =>
              setInspectorPoint
                (Some {| x := xPct clientX rect; y := yPct clientY rect |}) ;;
              setAppState INSPECTING ;;
              match truthy (captureFrame dom) with
              | None => setAppState REPAIR_GUIDE
              | Some base64 =>
                  setCapturedImage (Some (jpegDataUrl base64)) ;;
                  await (K_identifyComponentAtPoint base64
                           (xPct clientX rect) (yPct clientY rect)
                           (objectName plan))
              end
          end
      end
  | _, _ => ret tt
  end.

(** ... resumed with the component (lines 167-168). *)
Definition handleVideoClick_resolved (dom : Dom) (info : ComponentInfo)
    : Handler unit :=
  setComponentInfo (Some info) ;;
  speak dom ("That is the " ++ name info ++ ".").

(** [closeInspector] (lines 171-176). *)
Definition closeInspector : Handler unit :=
  setInspectorPoint None ;;
  setComponentInfo None ;;
  setCapturedImage None ;;
  setAppState REPAIR_GUIDE.

(** [startListening] (lines 180-201). *)
Definition startListening (dom : Dom) : Handler unit :=
  setAssistantResponse (Some "Listening...") ;;
  setIsListening true ;;
  stream <- gets srcObject ;;
  match videoRef dom, stream with
  | true, Some stream =>
      match getAudioTracks stream with
      | [] => ret tt
      | audioTrack :: _ =>
          set_mediaRecorderRef (Some {| recording := true |}) ;;
          set_audioChunksRef []
      end
  | _, _ => ret tt
  end.

(** [recorder.ondataavailable] (lines 196-198). *)
Definition ondataavailable (data : string) : Handler unit :=
  chunks <- gets audioChunksRef ;;
  set_audioChunksRef (chunks ++ [data]).

(** [stopListening] (lines 203-213), up to the reader's [onloadend].
    [stop()] on a recorder that is not recording throws, before any state
    is written. *)
Definition stopListening (repairPlan_c : option RepairPlan)
    (currentStepIndex_c : nat) : Handler unit :=
  recorder <- gets mediaRecorderRef ;;
  match recorder with
  | None => ret tt
  | Some r =>
      if recording r then
        set_mediaRecorderRef (Some {| recording := false |}) ;;
        setIsListening false ;;
        setAssistantResponse (Some "Thinking...") ;;
        await (K_onloadend repairPlan_c currentStepIndex_c)
      else throw
  end.

(** ... the reader's [onloadend] (lines 214-224), up to
    [await askRepairAssistant]. *)
Definition stopListening_onloadend (dom : Dom) (result : string)
    (repairPlan_c : option RepairPlan) (currentStepIndex_c : nat)
    : Handler unit :=
  let base64Audio := nth_error (split "," result) 1 in
  match truthy (captureFrame dom), repairPlan_c with
  | Some base64Image, Some plan =>
      match nth_error (steps plan) currentStepIndex_c with
      | None => throw
      | Some currentStep =>
          await (K_askRepairAssistant base64Image base64Audio
                   (instruction currentStep))
      end
  | _, _ => ret tt
  end.

(** ... resumed with the answer (lines 225-226). *)
Definition stopListening_resolved (dom : Dom) (response : string)
    : Handler unit :=
  setAssistantResponse (Some response) ;;
  speak dom response.

(** [resetApp] (lines 242-249). *)
Definition resetApp : Handler unit :=
  setRepairPlan None ;;
  setCurrentStepIndex (fun _ => 0) ;;
  setCapturedImage None ;;
  setErrorMsg None ;;
  setAssistantResponse None ;;
  setAppState CAMERA_READY.

(** ** The event loop *)

(** What can happen to the component: one of its handlers is called from
    the page, the recorder delivers a chunk, or the [i]-th parked
    continuation is resumed. *)
Inductive Event :=
| E_startCamera
| E_handleScan
| E_handleVerifyStep
| E_handleNextStep
| E_handleVideoClick (e : PointerEvent)
| E_closeInspector
| E_startListening
| E_stopListening
| E_resetApp
| E_ondataavailable (data : string)
| E_resolve (i : nat) (r : Response).

Fixpoint remove_nth {A} (i : nat) (l : list A) : list A :=
  match i, l with
  | _, [] => []
  | 0, _ :: t => t
  | S i', h :: t => h :: remove_nth i' t
  end.

(** The code after a suspension point, for the responses that point can
    get.  A rejected promise that no [catch] covers ends its handler. *)
Definition resume (dom : Dom) (k : Continuation) (r : Response)
    : option (Handler unit) :=
  match k, r with
  | K_getUserMedia, R_stream stream => Some (startCamera_resolved dom stream)
  | K_getUserMedia, R_rejected => Some startCamera_rejected
  | K_analyzeImageAndCreatePlan _, R_plan plan => Some (handleScan_resolved plan)
  | K_analyzeImageAndCreatePlan _, R_rejected => Some handleScan_rejected
  | K_setTimeout repairPlan_c currentStepIndex_c, R_elapsed =>
      Some (handleVerifyStep_timeout dom repairPlan_c currentStepIndex_c)
  | K_verifyRepairStep base64 _ repairPlan_c currentStepIndex_c,
    R_verdict completed feedback =>
      Some (handleVerifyStep_resolved dom base64 repairPlan_c
              currentStepIndex_c completed feedback)
  | K_verifyRepairStep _ _ _ _, R_rejected => Some (ret tt)
  | K_identifyComponentAtPoint _ _ _ _, R_info info =>
      Some (handleVideoClick_resolved dom info)
  | K_identifyComponentAtPoint _ _ _ _, R_rejected => Some (ret tt)
  | K_onloadend repairPlan_c currentStepIndex_c, R_readerResult result =>
      Some (stopListening_onloadend dom result repairPlan_c currentStepIndex_c)
  | K_askRepairAssistant _ _ _, R_answer response =>
      Some (stopListening_resolved dom response)
  | K_askRepairAssistant _ _ _, R_rejected => Some (ret tt)
  | _, _ => None
  end.

(** A handler called from the page is the one of the latest render: it
    closes over the state variables as they are now. *)
Definition dispatch (dom : Dom) (ev : Event) : Handler unit :=
  s <- gets session ;;
  match ev with
  | E_startCamera => startCamera
  | E_handleScan => handleScan dom
  | E_handleVerifyStep => handleVerifyStep (repairPlan s) (currentStepIndex s)
  | E_handleNextStep => handleNextStep (repairPlan s) (currentStepIndex s)
  | E_handleVideoClick e => handleVideoClick dom (appState s) (repairPlan s) e
  | E_closeInspector => closeInspector
  | E_startListening => startListening dom
  | E_stopListening => stopListening (repairPlan s) (currentStepIndex s)
  | E_resetApp => resetApp
  | E_ondataavailable data =>
      recorder <- gets mediaRecorderRef ;;
      match recorder with
      | Some _ => ondataavailable data
      | None => ret tt
      end
  | E_resolve i r =>
      ks <- gets awaiting ;;
      match nth_error ks i with
      | None => ret tt
      | Some k =>
          match resume dom k r with
          | None => ret tt
          | Some h => set_awaiting (remove_nth i ks) ;; h
          end
      end
  end.

Definition step (dom : Dom) (ev : Event) (w : World) : World :=
  snd (dispatch dom ev w).

Fixpoint run (trace : list (Dom * Event)) (w : World) : World :=
  match trace with
  | [] => w
  | (dom, ev) :: rest => run rest (step dom ev w)
  end.

(** ** What the page offers (the JSX of lines 251-461)

    Whether the control wired to a handler is rendered for a session.  The
    container's [onClick] is always there; [StepCard] receives
    [handleVerifyStep], [handleNextStep], [startListening] and
    [stopListening] whenever it is rendered. *)
Definition isSome {A} (o : option A) : bool :=
  match o with Some _ => true | None => false end.

Definition stepCardRendered (s : Session) : bool :=
  (AppState_eqb (appState s) REPAIR_GUIDE || AppState_eqb (appState s) VERIFYING)
  && isSome (repairPlan s).

Definition offered (s : Session) (ev : Event) : bool :=
  match ev with
  | E_startCamera => AppState_eqb (appState s) INTRO
  | E_handleScan => AppState_eqb (appState s) CAMERA_READY
  | E_handleVerifyStep | E_handleNextStep
  | E_startListening | E_stopListening => stepCardRendered s
  | E_handleVideoClick _ => true
  | E_closeInspector =>
      AppState_eqb (appState s) INSPECTING
      && isSome (inspectorPoint s) && isSome (componentInfo s)
  | E_resetApp =>
      stepCardRendered s
      || AppState_eqb (appState s) COMPLETED
      || AppState_eqb (appState s) ERROR
  | E_ondataavailable _ | E_resolve _ _ => true
  end.

(** The inspector overlay (reticle and card) is drawn under the test of
    line 299. *)
Definition inspectorRendered (s : Session) : bool :=
  AppState_eqb (appState s) INSPECTING && isSome (inspectorPoint s).

(** The live video is hidden behind the frozen frame (lines 269-279). *)
Definition liveFeedVisible (s : Session) : bool :=
  negb (isSome (capturedImage s)).

(** ** The step cursor *)

(** [currentStepIndex] indexes a step of the plan, when there is a plan. *)
Definition cursorInBounds (s : Session) : Prop :=
  match repairPlan s with
  | Some plan => currentStepIndex s < length (steps plan)
  | None => True
  end.

(** The events that put the cursor back to [0]: [resetApp] and the arrival
    of a new plan. *)
Definition rewinds (ev : Event) : bool :=
  match ev with
  | E_resetApp => true
  | E_resolve _ (R_plan _) => true
  | _ => false
  end.

(** An event is timely for a world when
    - the plan it delivers has at least one step, and
    - the positive verdict it delivers finds the session with the plan and
      the index that the verification closed over when it was started. *)
Definition timely (ev : Event) (w : World) : Prop :=
  match ev with
  | E_resolve i r =>
      match nth_error (awaiting w) i, r with
      | Some (K_analyzeImageAndCreatePlan _), R_plan plan => steps plan <> []
      | Some (K_verifyRepairStep _ _ repairPlan_c currentStepIndex_c),
        R_verdict true _ =>
          repairPlan_c = repairPlan (session w)
          /\ currentStepIndex_c = currentStepIndex (session w)
      | _, _ => True
      end
  | _ => True
  end.

Fixpoint timelyTrace (trace : list (Dom * Event)) (w : World) : Prop :=
  match trace with
  | [] => True
  | (dom, ev) :: rest => timely ev w /\ timelyTrace rest (step dom ev w)
  end.

Definition noRewind (trace : list (Dom * Event)) : Prop :=
  Forall (fun de => rewinds (snd de) = false) trace.

(** Every event of a trace is one the page offers when it happens. *)
Fixpoint offeredTrace (trace : list (Dom * Event)) (w : World) : bool :=
  match trace with
  | [] => true
  | (dom, ev) :: rest =>
      offered (session w) ev && offeredTrace rest (step dom ev w)
  end.

(** ** Operations run to their end

    A handler, its timer and the answer of the oracle, with no other event
    in between.  The continuation a handler parks is the last of
    [awaiting], at index [length (awaiting w)]. *)

(** [handleScan], then the plan. *)
Definition scan (dom0 dom1 : Dom) (plan : RepairPlan) (w : World) : World :=
  let i := length (awaiting w) in
  run [(dom0, E_handleScan); (dom1, E_resolve i (R_plan plan))] w.

(** [handleVerifyStep], then the timer callback, then the verdict. *)
Definition verifyCurrentStep (dom0 dom1 dom2 : Dom) (completed : bool)
    (feedback : string) (w : World) : World :=
  let i := length (awaiting w) in
  run [(dom0, E_handleVerifyStep);
       (dom1, E_resolve i R_elapsed);
       (dom2, E_resolve i (R_verdict completed feedback))] w.

(** [handleVideoClick], then [closeInspector] while the component is still
    being identified, then the component. *)
Definition inspectCloseResolve (dom0 dom1 dom2 : Dom) (e : PointerEvent)
    (info : ComponentInfo) (w : World) : World :=
  let i := length (awaiting w) in
  run [(dom0, E_handleVideoClick e);
       (dom1, E_closeInspector);
       (dom2, E_resolve i (R_info info))] w.

(** ** The frozen frame and the calls in flight *)

(** The frame a parked oracle call carries, for the two calls the claims
    name: the plan request of [handleScan] and the identification request
    of [handleVideoClick]. *)
Definition frameInFlight (k : Continuation) : option string :=
  match k with
  | K_analyzeImageAndCreatePlan base64 => Some base64
  | K_identifyComponentAtPoint base64 _ _ _ => Some base64
  | _ => None
  end.

(** The page shows the frame every such call in flight carries. *)
Definition frozenMatchesInFlight (w : World) : Prop :=
  forall k base64,
    In k (awaiting w) -> frameInFlight k = Some base64 ->
    capturedImage (session w) = Some (jpegDataUrl base64).

(** One call with a frame is in flight and nothing else is parked: the
    session waits in [ANALYZING], or in [INSPECTING] with the spinner
    (no component shown yet). *)
Definition waitingOn (w : World) (k : Continuation) : Prop :=
  awaiting w = [k]
  /\ match k with
     | K_analyzeImageAndCreatePlan _ => appState (session w) = ANALYZING
     | K_identifyComponentAtPoint _ _ _ _ =>
         appState (session w) = INSPECTING /\ componentInfo (session w) = None
     | _ => False
     end.

Definition isResolve (ev : Event) : bool :=
  match ev with E_resolve _ _ => true | _ => false end.

(** ** Sample data *)

Module Samples.

Definition cue : VisualCue :=
  {| type := box;
     coordinates :=
       {| ymin := Number.ofZ 0; xmin := Number.ofZ 0;
          ymax := Number.ofZ 1; xmax := Number.ofZ 1 |};
     label := Some "cover"; direction := None |}.

Definition openCover : RepairStep :=
  {| id := 1%Z; title := "Open"; instruction := "Remove the cover";
     visualCue := cue; toolNeeded := None; safetyWarning := None |}.

Definition tighten : RepairStep :=
  {| id := 2%Z; title := "Tighten"; instruction := "Tighten the screw";
     visualCue := cue; toolNeeded := Some "screwdriver";
     safetyWarning := Some "Unplug first" |}.

Definition lampPlan : RepairPlan :=
  {| objectName := "Lamp"; issueDiagnosis := "Loose socket";
     steps := [openCover; tighten] |}.

Definition fanPlan : RepairPlan :=
  {| objectName := "Fan"; issueDiagnosis := "Stuck blade";
     steps := [tighten] |}.

Definition emptyPlan : RepairPlan :=
  {| objectName := "Box"; issueDiagnosis := "Nothing to do"; steps := [] |}.

Definition socket : ComponentInfo :=
  {| name := "socket"; function := "Holds the bulb"; status := Damaged;
     details := "Bent contact" |}.

Definition mic : MediaStream := {| getAudioTracks := ["microphone"] |}.

(** A 200 x 400 container whose corner is at (10, 20). *)
Definition container : DOMRect :=
  {| left := Number.ofZ 10; top := Number.ofZ 20;
     width := Number.ofZ 200; height := Number.ofZ 400 |}.

(** The page while the video shows the frame that encodes to [frame]. *)
Definition page (frame : string) : Dom :=
  {| videoRef := true; canvasRef := Some true;
     toDataURL := "data:image/jpeg;base64," ++ frame;
     containerRef := Some container; speechSynthesis := true |}.

(** The page before the video has a frame: a canvas of size zero encodes
    to ["data:,"]. *)
Definition blankPage : Dom :=
  {| videoRef := true; canvasRef := Some true; toDataURL := "data:,";
     containerRef := Some container; speechSynthesis := true |}.

(** A session whose camera is running, before any scan. *)
Definition ready : World :=
  {| session :=
       {| appState := CAMERA_READY; repairPlan := None;
          currentStepIndex := 0; errorMsg := None; cameraActive := true;
          capturedImage := None; isListening := false;
          assistantResponse := None; inspectorPoint := None;
          componentInfo := None |};
     srcObject := Some mic; mediaRecorderRef := None; audioChunksRef := [];
     awaiting := []; spoken := [] |}.

(** A session in the guide, at the first of the two steps of the lamp, as
    the scan of the frame ["AAAA"] leaves it. *)
Definition guide : World :=
  {| session :=
       {| appState := REPAIR_GUIDE; repairPlan := Some lampPlan;
          currentStepIndex := 0; errorMsg := None; cameraActive := true;
          capturedImage := Some "data:image/jpeg;base64,AAAA";
          isListening := false;
          assistantResponse := None; inspectorPoint := None;
          componentInfo := None |};
     srcObject := Some mic; mediaRecorderRef := None; audioChunksRef := [];
     awaiting := []; spoken := [] |}.

(** The session on the last step of the lamp, the live feed showing. *)
Definition guideLastStep : World :=
  {| session :=
       {| appState := REPAIR_GUIDE; repairPlan := Some lampPlan;
          currentStepIndex := 1; errorMsg := None; cameraActive := true;
          capturedImage := None; isListening := false;
          assistantResponse := None; inspectorPoint := None;
          componentInfo := None |};
     srcObject := Some mic; mediaRecorderRef := None; audioChunksRef := [];
     awaiting := []; spoken := [] |}.

(** A click in the middle of [container], and one to the left of it. *)
Definition centre : PointerEvent :=
  MouseEvent (Number.ofZ 110) (Number.ofZ 220).
Definition outside : PointerEvent :=
  MouseEvent (Number.ofZ 5) (Number.ofZ 220).

(** The session of [guide] when the video element never got its stream. *)
Definition guideWithoutStream : World :=
  {| session := session guide;
     srcObject := None; mediaRecorderRef := None; audioChunksRef := [];
     awaiting := []; spoken := [] |}.

(** Camera, stream, scan, plan: the events that lead to [guide]. *)
Definition toGuide : list (Dom * Event) :=
  [ (blankPage, E_startCamera);
    (blankPage, E_resolve 0 (R_stream mic));
    (page "AAAA", E_handleScan);
    (page "AAAA", E_resolve 0 (R_plan lampPlan)) ].

(** A whole repair, every operation finished before the next. *)
Definition repair : list (Dom * Event) :=
  toGuide ++
  [ (page "BBBB", E_handleNextStep);
    (page "CCCC", E_handleVerifyStep);
    (page "CCCC", E_resolve 0 R_elapsed);
    (page "DDDD", E_resolve 0 (R_verdict true "done")) ].

(** A verification overtaken by a reset and a new scan: the verdict on
    the lamp arrives when the session is about the fan. *)
Definition overtaken (completed : bool) : list (Dom * Event) :=
  toGuide ++
  [ (page "BBBB", E_handleVerifyStep);
    (page "CCCC", E_resolve 0 R_elapsed);
    (page "CCCC", E_resetApp);
    (page "DDDD", E_handleScan);
    (page "DDDD", E_resolve 1 (R_plan fanPlan));
    (page "EEEE", E_resolve 0 (R_verdict completed "loose screw")) ].

(** The same, with the verdict arriving while the new scan is still with
    the oracle. *)
Definition overtakenDuringScan (completed : bool) : list (Dom * Event) :=
  toGuide ++
  [ (page "BBBB", E_handleVerifyStep);
    (page "CCCC", E_resolve 0 R_elapsed);
    (page "CCCC", E_resetApp);
    (page "DDDD", E_handleScan);
    (page "EEEE", E_resolve 0 (R_verdict completed "loose screw")) ].

(** The session of [guide] while a clip is being recorded. *)
Definition listening : World :=
  {| session :=
       {| appState := REPAIR_GUIDE; repairPlan := Some lampPlan;
          currentStepIndex := 0; errorMsg := None; cameraActive := true;
          capturedImage := None; isListening := true;
          assistantResponse := Some "Listening..."; inspectorPoint := None;
          componentInfo := None |};
     srcObject := Some mic; mediaRecorderRef := Some {| recording := true |};
     audioChunksRef := ["chunk1"; "chunk2"];
     awaiting := []; spoken := [] |}.

(** A session of the fan whose cursor has been pushed past its only step,
    as [overtaken true] leaves it. *)
Definition pastTheEnd : Session :=
  {| appState := REPAIR_GUIDE; repairPlan := Some fanPlan;
     currentStepIndex := 1; errorMsg := None; cameraActive := true;
     capturedImage := None; isListening := false;
     assistantResponse := None; inspectorPoint := None;
     componentInfo := None |}.

(** The page with another container. *)
Definition pageOf (rect : DOMRect) (frame : string) : Dom :=
  {| videoRef := true; canvasRef := Some true;
     toDataURL := "data:image/jpeg;base64," ++ frame;
     containerRef := Some rect; speechSynthesis := true |}.

(** A 25 x 25 container at the origin. *)
Definition narrow : DOMRect :=
  {| left := Number.ofZ 0; top := Number.ofZ 0;
     width := Number.ofZ 25; height := Number.ofZ 25 |}.


End Samples.

(** ** What the page draws from the session *)

(** The cue handed to [OverlayCanvas] (lines 282-288).  The overlay is
    drawn in [REPAIR_GUIDE] when there is a plan and a video element;
    [repairPlan.steps[currentStepIndex].visualCue] throws, while the
    component renders, when the cursor indexes no step. *)
Definition overlayCue (dom : Dom) (s : Session)
    : Completion (option VisualCue) :=
  match AppState_eqb (appState s) REPAIR_GUIDE, repairPlan s, videoRef dom with
  | true, Some plan, true =>
      match nth_error (steps plan) (currentStepIndex s) with
      | Some currentStep => Returned (Some (visualCue currentStep))
      | None => Threw
      end
  | _, _, _ => Returned None
  end.

(** The text of the error panel (line 450):
    [errorMsg || "An unknown error occurred."]. *)
Definition errorPanelText (s : Session) : string :=
  match truthy (errorMsg s) with
  | Some msg => msg
  | None => "An unknown error occurred."
  end.

(** A session in [ERROR] carries one of the two messages the handlers
    write. *)
Definition errorIsExplained (s : Session) : Prop :=
  appState s = ERROR ->
  errorMsg s = Some "Camera/Mic access denied. Please enable permissions."
  \/ errorMsg s
     = Some "Gemini could not identify the issue. Please try again with better lighting.".

(** ** More operations run to their end *)

(** [handleNextStep] called once per page of [doms]. *)
Definition presses (doms : list Dom) : list (Dom * Event) :=
  map (fun dom => (dom, E_handleNextStep)) doms.

(** The recorder delivers [chunks], one [ondataavailable] each. *)
Definition delivered (dom : Dom) (chunks : list string) : list (Dom * Event) :=
  map (fun data => (dom, E_ondataavailable data)) chunks.

(** [startListening], the chunks of the clip, [stopListening]. *)
Definition recordClip (dom0 dom1 dom2 : Dom) (chunks : list string)
    (w : World) : World :=
  run ((dom0, E_startListening)
       :: delivered dom1 chunks ++ [(dom2, E_stopListening)]) w.

(** [stopListening], then the reader's [onloadend], then the answer. *)
Definition askAssistant (dom0 dom1 dom2 : Dom) (result response : string)
    (w : World) : World :=
  let i := length (awaiting w) in
  run [(dom0, E_stopListening);
       (dom1, E_resolve i (R_readerResult result));
       (dom2, E_resolve i (R_answer response))] w.

(** [handleVideoClick], then the component, then [closeInspector]. *)
Definition inspectAndClose (dom0 dom1 dom2 : Dom) (e : PointerEvent)
    (info : ComponentInfo) (w : World) : World :=
  let i := length (awaiting w) in
  run [(dom0, E_handleVideoClick e);
       (dom1, E_resolve i (R_info info));
       (dom2, E_closeInspector)] w.

(** [startCamera], then what [getUserMedia] settles with. *)
Definition startCameraThen (dom0 dom1 : Dom) (r : Response) (w : World)
    : World :=
  let i := length (awaiting w) in
  run [(dom0, E_startCamera); (dom1, E_resolve i r)] w.

(** The moves of [appState] that the handlers make: [edge ev a b] when the
    event [ev], met in state [a], may leave the session in the different
    state [b].  A handler called from the page is read with the state in
    which the page offers it; a resumed continuation writes its state
    whatever the session is in. *)
Definition edge (ev : Event) (a b : AppState) : bool :=
  match ev, a, b with
  | E_startCamera, INTRO, CAMERA_READY => true
  | E_handleScan, CAMERA_READY, ANALYZING => true
  | E_handleVerifyStep, REPAIR_GUIDE, VERIFYING => true
  | E_handleNextStep, REPAIR_GUIDE, COMPLETED => true
  | E_handleNextStep, VERIFYING, REPAIR_GUIDE => true
  | E_handleNextStep, VERIFYING, COMPLETED => true
  | E_handleVideoClick _, REPAIR_GUIDE, INSPECTING => true
  | E_closeInspector, INSPECTING, REPAIR_GUIDE => true
  | E_resetApp, REPAIR_GUIDE, CAMERA_READY => true
  | E_resetApp, VERIFYING, CAMERA_READY => true
  | E_resetApp, COMPLETED, CAMERA_READY => true
  | E_resetApp, ERROR, CAMERA_READY => true
  | E_resolve _ R_rejected, _, ERROR => true
  | E_resolve _ (R_plan _), _, REPAIR_GUIDE => true
  | E_resolve _ R_elapsed, _, REPAIR_GUIDE => true
  | E_resolve _ (R_verdict true _), _, REPAIR_GUIDE => true
  | E_resolve _ (R_verdict true _), _, COMPLETED => true
  | E_resolve _ (R_verdict false _), _, REPAIR_GUIDE => true
  | _, _, _ => false
  end.

(** No comma in a string. *)
Fixpoint noComma (s : string) : bool :=
  match s with
  | EmptyString => true
  | String a s' => negb (Ascii.eqb a ",") && noComma s'
  end.

(** ** The percentage as the specification writes it *)

(** [100*(c - origin)/size], the same binary64 operations taken in the
    order of the specification's formula; the code's order is that of
    [xPct] and [yPct]. *)
Definition specPct (c origin size : number) : number :=
  Number.div (Number.mul (Number.ofZ 100) (Number.sub c origin)) size.

(** [Number.isFinite]. *)
Definition isFinite (a : number) : bool :=
  match a with
  | S754_zero _ | S754_finite _ _ _ => true
  | _ => false
  end.



(** ** The page of a browser *)

(** What a browser adds to [Dom]: the video element is mounted, the
    canvas encodes a frame only once the video element has been given a
    stream, and a stream granted for [audio: true] has an audio track. *)
Definition browserEvent (dom : Dom) (ev : Event) (w : World) : Prop :=
  videoRef dom = true
  /\ (srcObject w = None -> truthy (captureFrame dom) = None)
  /\ match ev with
     | E_resolve _ (R_stream stream) => getAudioTracks stream <> []
     | _ => True
     end.

Fixpoint browserTrace (trace : list (Dom * Event)) (w : World) : Prop :=
  match trace with
  | [] => True
  | (dom, ev) :: rest =>
      browserEvent dom ev w /\ browserTrace rest (step dom ev w)
  end.

(** Behind every plan, and behind every plan request in flight, there is
    a stream on the video element; and every stream there has an audio
    track. *)
Definition streamBehindPlan (w : World) : Prop :=
  (forall stream, srcObject w = Some stream -> getAudioTracks stream <> [])
  /\ (repairPlan (session w) <> None
      \/ (exists base64,
            In (K_analyzeImageAndCreatePlan base64) (awaiting w)) ->
      srcObject w <> None).

(** ** Proof tools *)

(** Evaluate the handlers on a world given by its components, and split on
    every test a handler makes on the way. *)
Ltac eval_handlers :=
  cbv beta iota zeta delta
    [step dispatch resume
     startCamera startCamera_resolved startCamera_rejected
     handleScan handleScan_resolved handleScan_rejected
     handleNextStep handleVerifyStep handleVerifyStep_timeout
     handleVerifyStep_resolved handleVideoClick handleVideoClick_resolved
     closeInspector startListening ondataavailable stopListening
     stopListening_onloadend stopListening_resolved resetApp
     await speak utter
     setAppState setRepairPlan setCurrentStepIndex setErrorMsg
     setCameraActive setCapturedImage setIsListening setAssistantResponse
     setInspectorPoint setComponentInfo
     set_srcObject set_mediaRecorderRef set_audioChunksRef set_awaiting
     modify gets bind ret throw fst snd AppState_eqb
     session srcObject mediaRecorderRef audioChunksRef awaiting spoken
     appState repairPlan currentStepIndex errorMsg cameraActive
     capturedImage isListening assistantResponse inspectorPoint
     componentInfo] in *.

Ltac split_tests :=
  repeat (eval_handlers;
          match goal with
          | |- context [match ?t with _ => _ end] =>
              lazymatch t with
              | context [match _ with _ => _ end] => fail
              | _ => destruct t eqn:?
              end
          end);
  eval_handlers.

Ltac open_world w :=
  let s := fresh "s" in
  destruct w as [s ? ? ? ? ?]; destruct s; eval_handlers.

Ltac tidy :=
  repeat match goal with
         | H : Some _ = Some _ |- _ => inversion H; subst; clear H
         | H : (_ <? _)%Z = true |- _ => apply Z.ltb_lt in H
         | H : (_ <? _)%Z = false |- _ => apply Z.ltb_ge in H
         | H : _ /\ _ |- _ => destruct H
         end.

(** ** Lists of parked continuations *)

Lemma nth_error_snoc {A} (l : list A) (a : A) :
  nth_error (l ++ [a]) (length l) = Some a.
Proof.
  induction l as [|h t IH]; simpl; [reflexivity | exact IH].
Qed.

Lemma remove_nth_snoc {A} (l : list A) (a : A) :
  remove_nth (length l) (l ++ [a]) = l.
Proof.
  induction l as [|h t IH]; simpl; [reflexivity | now rewrite IH].
Qed.

Lemma nth_error_length {A} (l : list A) : nth_error l (length l) = None.
Proof. apply nth_error_None. lia. Qed.

(** Follow a run: resume the continuation just parked, and take the branch
    a hypothesis decides. *)
Ltac forward :=
  repeat (eval_handlers;
          first [ rewrite nth_error_snoc
                | rewrite remove_nth_snoc
                | match goal with
                  | H : ?t = _ |- context [match ?t with _ => _ end] =>
                      rewrite H
                  end ]);
  eval_handlers.

(** ** The sample worlds *)

Example toGuide_reaches_guide :
  run Samples.toGuide initialWorld = Samples.guide
  /\ run (firstn 2 Samples.toGuide) initialWorld = Samples.ready.
Proof. split; reflexivity. Qed.

Example toGuide_is_offered :
  offeredTrace Samples.toGuide initialWorld = true.
Proof. reflexivity. Qed.

(** ** C1: the step cursor *)

(** One event moves the cursor forward or not at all, unless it rewinds. *)
Lemma step_monotone dom ev w :
  rewinds ev = false ->
  currentStepIndex (session w) <= currentStepIndex (session (step dom ev w)).
Proof.
  intros Hr. open_world w.
  destruct ev; try discriminate Hr; split_tests; try discriminate; lia.
Qed.

Lemma run_monotone trace :
  noRewind trace ->
  forall w,
    currentStepIndex (session w) <= currentStepIndex (session (run trace w)).
Proof.
  induction 1 as [|[dom ev] rest Hev _ IH]; intros w; simpl.
  - lia.
  - etransitivity; [apply (step_monotone dom ev w Hev) | apply IH].
Qed.

(** A timely event keeps the cursor inside the plan. *)
Lemma step_bounds dom ev w :
  cursorInBounds (session w) -> timely ev w ->
  cursorInBounds (session (step dom ev w)).
Proof.
  unfold cursorInBounds, timely. intros Hb Ht. open_world w.
  destruct ev; split_tests; try exact I; try assumption; tidy; try lia.
  (* what is left is the arrival of a new plan *)
  destruct (steps plan); [congruence | simpl; lia].
Qed.

Lemma run_bounds trace :
  forall w,
    cursorInBounds (session w) -> timelyTrace trace w ->
    cursorInBounds (session (run trace w)).
Proof.
  induction trace as [|[dom ev] rest IH]; intros w Hb Ht; simpl in *.
  - exact Hb.
  - destruct Ht as [Hev Hrest]. apply IH; [now apply step_bounds | exact Hrest].
Qed.

(** An event that finds no continuation of the kind it answers is timely:
    every handler call from the page is. *)
Lemma handler_calls_timely ev w :
  isResolve ev = false -> timely ev w.
Proof. destruct ev; simpl; intros H; try exact I; discriminate H. Qed.

(** A verification that runs to its end with nothing in between is
    timely, whatever the verdict. *)
Lemma verifyCurrentStep_is_timely dom0 dom1 dom2 completed feedback w :
  timelyTrace
    [(dom0, E_handleVerifyStep);
     (dom1, E_resolve (length (awaiting w)) R_elapsed);
     (dom2, E_resolve (length (awaiting w)) (R_verdict completed feedback))]
    w.
Proof.
  cbn [timelyTrace]. split; [exact I | split; [| split; [| exact I]]].
  - unfold timely. destruct (nth_error _ _) as [[]|]; exact I.
  - unfold timely. open_world w. forward.
    split_tests; try exact I.
    all: rewrite ?nth_error_snoc, ?nth_error_length in *; try discriminate.
    all: tidy; split; reflexivity.
Qed.

(** X19.  From the initial session, along every trace whose plans have
    at least one step and whose positive verdicts are timely, the cursor
    indexes a step of the plan whenever there is a plan; and from there
    on, along every further sequence of events without [resetApp] and
    without a new plan, timely or not, the cursor never decreases. *)
Theorem cursor_in_bounds_and_monotone (trace : list (Dom * Event)) :
  timelyTrace trace initialWorld ->
  cursorInBounds (session (run trace initialWorld))
  /\ forall more,
       noRewind more ->
       currentStepIndex (session (run trace initialWorld))
       <= currentStepIndex (session (run more (run trace initialWorld))).
Proof.
  intros Ht. split.
  - apply run_bounds; [exact I | exact Ht].
  - intros more Hmore. now apply run_monotone.
Qed.

Lemma cursor_in_bounds_and_monotone_witness :
  timelyTrace Samples.repair initialWorld
  /\ cursorInBounds (session (run Samples.repair initialWorld))
  /\ forall more,
       noRewind more ->
       currentStepIndex (session (run Samples.repair initialWorld))
       <= currentStepIndex
            (session (run more (run Samples.repair initialWorld))).
Proof.
  assert (Ht : timelyTrace Samples.repair initialWorld).
  { simpl. repeat split; discriminate. }
  split; [exact Ht | apply (cursor_in_bounds_and_monotone Samples.repair Ht)].
Defined.

(** C1 at the input where the code breaks it.  Every event of
    [Samples.overtaken true] is offered by the page: a verification of the
    two-step lamp plan is started, the session is reset and a scan brings
    the one-step plan of the fan; the positive verdict on the lamp then
    passes the test of [handleNextStep] with the index and plan it closed
    over and moves the cursor of the fan to 1, past its only step. *)
Lemma stale_verdict_moves_cursor_out_of_bounds :
  let w := run (Samples.overtaken true) initialWorld in
  offeredTrace (Samples.overtaken true) initialWorld = true
  /\ repairPlan (session w) = Some Samples.fanPlan
  /\ currentStepIndex (session w) = 1
  /\ length (steps Samples.fanPlan) = 1
  /\ ~ cursorInBounds (session w).
Proof.
  cbv zeta. repeat split.
  unfold cursorInBounds. simpl. lia.
Qed.

(** Why [timely] asks for a step in every plan: [handleScan_resolved]
    takes the plan as it comes. *)
Example empty_plan_out_of_bounds :
  ~ cursorInBounds
      (session (scan (Samples.page "AAAA") (Samples.page "AAAA")
                  Samples.emptyPlan initialWorld)).
Proof. unfold cursorInBounds. simpl. lia. Qed.

(** ** C2, C3: verification of the current step *)

(** The timer callback of a verification sends the frame it captures,
    with the instruction of the current step. *)
Lemma verification_request dom0 dom1 w plan currentStep base64 :
  repairPlan (session w) = Some plan ->
  nth_error (steps plan) (currentStepIndex (session w)) = Some currentStep ->
  truthy (captureFrame dom1) = Some base64 ->
  awaiting (run [(dom0, E_handleVerifyStep);
                 (dom1, E_resolve (length (awaiting w)) R_elapsed)] w)
  = (awaiting w
     ++ [K_verifyRepairStep base64 (instruction currentStep) (Some plan)
           (currentStepIndex (session w))])%list.
Proof.
  intros Hplan Hstep Hframe. unfold run. open_world w. subst.
  forward. reflexivity.
Qed.

(** C2 (as amended).  A verification that the oracle answers with
    [{completed: false, feedback}] leaves the cursor where it was, shows
    the feedback behind the prefix ["Verification Info: "], speaks the
    feedback itself, freezes the frame that was checked and returns to
    [REPAIR_GUIDE]. *)
Theorem verification_not_completed
    dom0 dom1 dom2 w plan currentStep base64 feedback :
  repairPlan (session w) = Some plan ->
  nth_error (steps plan) (currentStepIndex (session w)) = Some currentStep ->
  truthy (captureFrame dom1) = Some base64 ->
  let w' := verifyCurrentStep dom0 dom1 dom2 false feedback w in
  currentStepIndex (session w') = currentStepIndex (session w)
  /\ assistantResponse (session w')
     = Some ("Verification Info: " ++ feedback)
  /\ spoken w'
     = (if speechSynthesis dom2 then feedback :: spoken w else spoken w)
  /\ capturedImage (session w') = Some (jpegDataUrl base64)
  /\ appState (session w') = REPAIR_GUIDE
  /\ repairPlan (session w') = Some plan
  /\ awaiting w' = awaiting w.
Proof.
  intros Hplan Hstep Hframe. unfold verifyCurrentStep, run.
  open_world w. subst. forward.
  destruct (speechSynthesis dom2); eval_handlers; repeat split.
Qed.

Lemma verification_not_completed_witness :
  let w' :=
    verifyCurrentStep (Samples.page "BBBB") (Samples.page "CCCC")
      (Samples.page "CCCC") false "loose screw" Samples.guide in
  currentStepIndex (session w') = 0
  /\ assistantResponse (session w') = Some "Verification Info: loose screw"
  /\ spoken w' = ["loose screw"]
  /\ capturedImage (session w') = Some "data:image/jpeg;base64,CCCC"
  /\ appState (session w') = REPAIR_GUIDE
  /\ repairPlan (session w') = Some Samples.lampPlan
  /\ awaiting w' = [].
Proof.
  exact (verification_not_completed
           (Samples.page "BBBB") (Samples.page "CCCC") (Samples.page "CCCC")
           Samples.guide Samples.lampPlan Samples.openCover "CCCC"
           "loose screw" eq_refl eq_refl eq_refl).
Defined.

(** C2 (as stated) fails: with the feedback ["loose screw"] the response
    shown is not the feedback. *)
Lemma verification_feedback_is_prefixed :
  let w' :=
    verifyCurrentStep (Samples.page "BBBB") (Samples.page "CCCC")
      (Samples.page "CCCC") false "loose screw" Samples.guide in
  assistantResponse (session w') = Some "Verification Info: loose screw"
  /\ assistantResponse (session w') <> Some "loose screw".
Proof. cbv zeta. split; [reflexivity | discriminate]. Qed.

(** X20.  A verification that runs undisturbed and that the oracle
    answers with [{completed: true}]: the timer callback sends the frame
    it captures with the instruction of the current step; the verdict
    ends the repair when the cursor is on the last step, and otherwise
    moves the cursor by exactly one, clears the frozen frame and returns
    to [REPAIR_GUIDE].  The assistant text is cleared, the plan kept and
    nothing stays parked. *)
Theorem undisturbed_verification_completed
    dom0 dom1 dom2 w plan currentStep base64 feedback :
  repairPlan (session w) = Some plan ->
  nth_error (steps plan) (currentStepIndex (session w)) = Some currentStep ->
  truthy (captureFrame dom1) = Some base64 ->
  let asked := run [(dom0, E_handleVerifyStep);
                    (dom1, E_resolve (length (awaiting w)) R_elapsed)] w in
  let w' := verifyCurrentStep dom0 dom1 dom2 true feedback w in
  (appState (session asked) = VERIFYING
   /\ currentStepIndex (session asked) = currentStepIndex (session w)
   /\ awaiting asked
      = (awaiting w
         ++ [K_verifyRepairStep base64 (instruction currentStep)
               (Some plan) (currentStepIndex (session w))])%list)
  /\ (S (currentStepIndex (session w)) = length (steps plan) ->
      appState (session w') = COMPLETED
      /\ currentStepIndex (session w') = currentStepIndex (session w))
  /\ (S (currentStepIndex (session w)) <> length (steps plan) ->
      currentStepIndex (session w') = currentStepIndex (session w) + 1
      /\ capturedImage (session w') = None
      /\ appState (session w') = REPAIR_GUIDE)
  /\ assistantResponse (session w') = None
  /\ repairPlan (session w') = Some plan
  /\ spoken w' = spoken w
  /\ awaiting w' = awaiting w.
Proof.
  intros Hplan Hstep Hframe. unfold verifyCurrentStep, run.
  assert (Hlt : currentStepIndex (session w) < length (steps plan)).
  { apply nth_error_Some. rewrite Hstep. discriminate. }
  open_world w. subst. forward.
  split; [repeat split|].
  split; [|split]; try (intros Hlast); split_tests; tidy; repeat split; lia.
Qed.

Lemma undisturbed_verification_completed_witness :
  let w1 :=
    verifyCurrentStep (Samples.page "BBBB") (Samples.page "CCCC")
      (Samples.page "CCCC") true "done" Samples.guide in
  let w2 :=
    verifyCurrentStep (Samples.page "DDDD") (Samples.page "EEEE")
      (Samples.page "EEEE") true "done" Samples.guideLastStep in
  (currentStepIndex (session w1) = 1
   /\ capturedImage (session w1) = None
   /\ appState (session w1) = REPAIR_GUIDE)
  /\ (appState (session w2) = COMPLETED
      /\ currentStepIndex (session w2) = 1).
Proof.
  cbv zeta. split.
  - apply (undisturbed_verification_completed
             (Samples.page "BBBB") (Samples.page "CCCC") (Samples.page "CCCC")
             Samples.guide Samples.lampPlan Samples.openCover "CCCC" "done"
             eq_refl eq_refl eq_refl).
    simpl. discriminate.
  - apply (undisturbed_verification_completed
             (Samples.page "DDDD") (Samples.page "EEEE") (Samples.page "EEEE")
             Samples.guideLastStep Samples.lampPlan Samples.tighten "EEEE"
             "done" eq_refl eq_refl eq_refl).
    reflexivity.
Defined.

(** C3 at the input where the code breaks it.  On
    [Samples.overtaken true], whose events the page offers one by one,
    the positive verdict arrives when the session is on the only step of
    the fan plan, its last: instead of [COMPLETED] the session ends in
    [REPAIR_GUIDE] with the cursor moved to 1. *)
Lemma stale_verdict_on_last_step_does_not_complete :
  let trace := Samples.overtaken true in
  let before := run (removelast trace) initialWorld in
  let after := run trace initialWorld in
  offeredTrace trace initialWorld = true
  /\ last trace (Samples.blankPage, E_resetApp)
     = (Samples.page "EEEE", E_resolve 0 (R_verdict true "loose screw"))
  /\ awaiting before
     = [K_verifyRepairStep "CCCC" "Remove the cover"
          (Some Samples.lampPlan) 0]
  /\ repairPlan (session before) = Some Samples.fanPlan
  /\ S (currentStepIndex (session before)) = length (steps Samples.fanPlan)
  /\ appState (session after) = REPAIR_GUIDE
  /\ appState (session after) <> COMPLETED
  /\ currentStepIndex (session after) = 1.
Proof. cbv zeta. repeat split. discriminate. Qed.

(** ** C4: a successful scan *)

(** C4 (as amended).  A scan whose plan request succeeds has sent the
    captured frame, sets the plan, puts the cursor on step 0 and enters
    [REPAIR_GUIDE]; the frame that was sent stays frozen on the page. *)
Theorem scan_success dom0 dom1 w plan base64 :
  truthy (captureFrame dom0) = Some base64 ->
  let w' := scan dom0 dom1 plan w in
  awaiting (step dom0 E_handleScan w)
  = (awaiting w ++ [K_analyzeImageAndCreatePlan base64])%list
  /\ repairPlan (session w') = Some plan
  /\ currentStepIndex (session w') = 0
  /\ appState (session w') = REPAIR_GUIDE
  /\ capturedImage (session w') = Some (jpegDataUrl base64)
  /\ liveFeedVisible (session w') = false
  /\ awaiting w' = awaiting w.
Proof.
  intros Hframe. unfold scan, run, liveFeedVisible.
  open_world w. forward. repeat split.
Qed.

Lemma scan_success_witness :
  let w' :=
    scan (Samples.page "AAAA") (Samples.page "BBBB") Samples.lampPlan
      Samples.ready in
  awaiting (step (Samples.page "AAAA") E_handleScan Samples.ready)
  = [K_analyzeImageAndCreatePlan "AAAA"]
  /\ repairPlan (session w') = Some Samples.lampPlan
  /\ currentStepIndex (session w') = 0
  /\ appState (session w') = REPAIR_GUIDE
  /\ capturedImage (session w') = Some "data:image/jpeg;base64,AAAA"
  /\ liveFeedVisible (session w') = false
  /\ awaiting w' = [].
Proof.
  exact (scan_success (Samples.page "AAAA") (Samples.page "BBBB")
           Samples.ready Samples.lampPlan "AAAA" eq_refl).
Defined.

(** C4 (as stated) fails: after the plan has arrived the frozen frame is
    still set, and the live feed stays hidden behind it. *)
Lemma scan_success_keeps_frozen_frame :
  let w' :=
    scan (Samples.page "AAAA") (Samples.page "BBBB") Samples.lampPlan
      Samples.ready in
  appState (session w') = REPAIR_GUIDE
  /\ capturedImage (session w') <> None
  /\ liveFeedVisible (session w') = false.
Proof. cbv zeta. repeat split. discriminate. Qed.

(** ** C5, C8: the inspector *)

(** What a tap in the guide does before anything is awaited. *)
Lemma inspect_request dom w plan e clientX clientY rect base64 :
  appState (session w) = REPAIR_GUIDE ->
  repairPlan (session w) = Some plan ->
  clientXY e = Some (clientX, clientY) ->
  containerRef dom = Some rect ->
  truthy (captureFrame dom) = Some base64 ->
  let w' := step dom (E_handleVideoClick e) w in
  awaiting w'
  = (awaiting w
     ++ [K_identifyComponentAtPoint base64 (xPct clientX rect)
           (yPct clientY rect) (objectName plan)])%list
  /\ appState (session w') = INSPECTING
  /\ inspectorPoint (session w')
     = Some {| x := xPct clientX rect; y := yPct clientY rect |}
  /\ capturedImage (session w') = Some (jpegDataUrl base64)
  /\ componentInfo (session w') = componentInfo (session w).
Proof.
  intros Hstate Hplan Hxy Hrect Hframe. open_world w. subst.
  forward. repeat split.
Qed.

(** C5 (as amended).  When [closeInspector] runs while the component is
    still being identified, the inspector is closed and stays closed, but
    the late result is applied all the same: it is stored in
    [componentInfo] and spoken. *)
Theorem late_identification_is_applied
    dom0 dom1 dom2 w plan e clientX clientY rect base64 info :
  appState (session w) = REPAIR_GUIDE ->
  repairPlan (session w) = Some plan ->
  clientXY e = Some (clientX, clientY) ->
  containerRef dom0 = Some rect ->
  truthy (captureFrame dom0) = Some base64 ->
  let w' := inspectCloseResolve dom0 dom1 dom2 e info w in
  componentInfo (session w') = Some info
  /\ spoken w'
     = (if speechSynthesis dom2
        then ("That is the " ++ name info ++ ".") :: spoken w
        else spoken w)
  /\ appState (session w') = REPAIR_GUIDE
  /\ inspectorPoint (session w') = None
  /\ capturedImage (session w') = None
  /\ inspectorRendered (session w') = false
  /\ repairPlan (session w') = Some plan
  /\ currentStepIndex (session w') = currentStepIndex (session w)
  /\ awaiting w' = awaiting w.
Proof.
  intros Hstate Hplan Hxy Hrect Hframe.
  unfold inspectCloseResolve, run, inspectorRendered.
  open_world w. subst. forward.
  destruct (speechSynthesis dom2); eval_handlers; repeat split.
Qed.

Lemma late_identification_is_applied_witness :
  let w' :=
    inspectCloseResolve (Samples.page "BBBB") (Samples.page "CCCC")
      (Samples.page "DDDD") Samples.centre Samples.socket Samples.guide in
  componentInfo (session w') = Some Samples.socket
  /\ spoken w' = ["That is the socket."]
  /\ appState (session w') = REPAIR_GUIDE
  /\ inspectorPoint (session w') = None
  /\ capturedImage (session w') = None
  /\ inspectorRendered (session w') = false
  /\ repairPlan (session w') = Some Samples.lampPlan
  /\ currentStepIndex (session w') = 0
  /\ awaiting w' = [].
Proof.
  exact (late_identification_is_applied
           (Samples.page "BBBB") (Samples.page "CCCC") (Samples.page "DDDD")
           Samples.guide Samples.lampPlan Samples.centre (Number.ofZ 110) (Number.ofZ 220)
           Samples.container "BBBB" Samples.socket
           eq_refl eq_refl eq_refl eq_refl eq_refl).
Defined.

(** C5 (as stated) fails: the result that arrives after [closeInspector]
    is stored, and the next tap opens the inspector on the card of the
    component of the tap before, while its own request is in flight. *)
Lemma late_identification_mutates_session :
  let w' :=
    inspectCloseResolve (Samples.page "BBBB") (Samples.page "CCCC")
      (Samples.page "DDDD") Samples.centre Samples.socket Samples.guide in
  let w'' := step (Samples.page "EEEE")
               (E_handleVideoClick Samples.outside) w' in
  componentInfo (session Samples.guide) = None
  /\ componentInfo (session w') = Some Samples.socket
  /\ inspectorRendered (session w'') = true
  /\ componentInfo (session w'') = Some Samples.socket
  /\ exists xp yp,
       awaiting w'' = [K_identifyComponentAtPoint "EEEE" xp yp "Lamp"].
Proof. cbv zeta. repeat split. eexists _, _. reflexivity. Qed.

(** C8 (as amended).  When no frame can be captured, a tap in the guide
    leaves the session in [REPAIR_GUIDE] with no inspector drawn, no frame
    frozen by it and no request sent; [componentInfo] is as before, and
    the tapped point stays in [inspectorPoint]. *)
Theorem inspect_without_frame dom w plan e clientX clientY rect :
  appState (session w) = REPAIR_GUIDE ->
  repairPlan (session w) = Some plan ->
  clientXY e = Some (clientX, clientY) ->
  containerRef dom = Some rect ->
  truthy (captureFrame dom) = None ->
  let w' := step dom (E_handleVideoClick e) w in
  appState (session w') = REPAIR_GUIDE
  /\ inspectorRendered (session w') = false
  /\ inspectorPoint (session w')
     = Some {| x := xPct clientX rect; y := yPct clientY rect |}
  /\ componentInfo (session w') = componentInfo (session w)
  /\ capturedImage (session w') = capturedImage (session w)
  /\ awaiting w' = awaiting w
  /\ spoken w' = spoken w.
Proof.
  intros Hstate Hplan Hxy Hrect Hframe. unfold inspectorRendered.
  open_world w. subst. forward. repeat split.
Qed.

Lemma inspect_without_frame_witness :
  let w' := step Samples.blankPage (E_handleVideoClick Samples.centre)
              Samples.guide in
  appState (session w') = REPAIR_GUIDE
  /\ inspectorRendered (session w') = false
  /\ inspectorPoint (session w')
     = Some {| x := xPct (Number.ofZ 110) Samples.container;
               y := yPct (Number.ofZ 220) Samples.container |}
  /\ componentInfo (session w') = None
  /\ capturedImage (session w') = Some "data:image/jpeg;base64,AAAA"
  /\ awaiting w' = []
  /\ spoken w' = [].
Proof.
  exact (inspect_without_frame Samples.blankPage Samples.guide
           Samples.lampPlan Samples.centre (Number.ofZ 110) (Number.ofZ 220) Samples.container
           eq_refl eq_refl eq_refl eq_refl eq_refl).
Defined.

(** C8 (as stated) fails: the point of the tap is still in the session
    after the capture has failed. *)
Lemma inspect_without_frame_keeps_point :
  let w' := step Samples.blankPage (E_handleVideoClick Samples.centre)
              Samples.guide in
  inspectorPoint (session Samples.guide) = None
  /\ appState (session w') = REPAIR_GUIDE
  /\ inspectorPoint (session w') <> None.
Proof. cbv zeta. repeat split. discriminate. Qed.

(** ** C6: the frozen frame and the request in flight *)

Lemma remove_nth_length {A} (i : nat) (l : list A) (a : A) :
  nth_error l i = Some a -> S (length (remove_nth i l)) = length l.
Proof.
  revert i; induction l as [|h t IH]; intros [|i'] H; simpl in *;
    try discriminate; [reflexivity | now rewrite (IH i' H)].
Qed.

(** Two lists of different lengths are not equal. *)
Ltac by_length H :=
  apply (f_equal (@length _)) in H;
  repeat match goal with
         | E : nth_error _ _ = Some _ |- _ => apply remove_nth_length in E
         end;
  rewrite ?length_app in H; simpl in H; lia.

(** Whatever event parks a request that carries a frame, the frame is the
    one captured at that instant and the page has been frozen on it. *)
Lemma frozen_at_issue dom ev w k base64 :
  frameInFlight k = Some base64 ->
  awaiting (step dom ev w) = (awaiting w ++ [k])%list ->
  capturedImage (session (step dom ev w)) = Some (jpegDataUrl base64)
  /\ truthy (captureFrame dom) = Some base64.
Proof.
  intros Hk H. open_world w. destruct ev; split_tests.
  all: try solve [by_length H].
  all: apply app_inv_head in H; inversion H; subst; try discriminate Hk.
  all: inversion Hk; subst; split; reflexivity.
Qed.

(** While the session waits on one such request and nothing else is
    parked, no control the page offers touches the frozen frame. *)
Lemma frozen_while_waiting dom ev w k base64 :
  frameInFlight k = Some base64 ->
  waitingOn w k ->
  capturedImage (session w) = Some (jpegDataUrl base64) ->
  offered (session w) ev = true -> isResolve ev = false ->
  waitingOn (step dom ev w) k
  /\ capturedImage (session (step dom ev w)) = Some (jpegDataUrl base64).
Proof.
  unfold waitingOn, offered, stepCardRendered.
  intros Hk [Haw Hst] Him Hoff Hres. open_world w. subst.
  destruct k; try discriminate Hk; destruct ev; try discriminate Hres.
  all: tidy; subst; try discriminate Hoff.
  all: split_tests; auto.
  destruct inspectorPoint0; discriminate Hoff.
Qed.

(** C6 (as amended).  When an event issues a request that carries a frame
    (the plan request of a scan, the identification request of a tap), the
    page is already frozen on the data URL of exactly that frame, which is
    the frame just captured.  The frame stays frozen while the session
    waits on that request alone and only the controls the page offers are
    used. *)
Theorem frozen_frame_matches_request dom ev w k base64 :
  frameInFlight k = Some base64 ->
  (awaiting (step dom ev w) = (awaiting w ++ [k])%list ->
     capturedImage (session (step dom ev w)) = Some (jpegDataUrl base64)
     /\ truthy (captureFrame dom) = Some base64)
  /\ (waitingOn w k ->
      capturedImage (session w) = Some (jpegDataUrl base64) ->
      offered (session w) ev = true -> isResolve ev = false ->
      waitingOn (step dom ev w) k
      /\ capturedImage (session (step dom ev w)) = Some (jpegDataUrl base64)).
Proof.
  intros Hk. split.
  - now apply frozen_at_issue.
  - now apply frozen_while_waiting.
Qed.

Lemma frozen_frame_matches_request_witness :
  let scanning := step (Samples.page "AAAA") E_handleScan Samples.ready in
  let tapped :=
    step (Samples.page "BBBB") (E_handleVideoClick Samples.centre)
      Samples.guide in
  (capturedImage (session scanning) = Some "data:image/jpeg;base64,AAAA"
   /\ truthy (captureFrame (Samples.page "AAAA")) = Some "AAAA")
  /\ (capturedImage (session tapped) = Some "data:image/jpeg;base64,BBBB"
      /\ truthy (captureFrame (Samples.page "BBBB")) = Some "BBBB")
  /\ capturedImage
       (session (step (Samples.page "CCCC")
                   (E_handleVideoClick Samples.outside) scanning))
     = Some "data:image/jpeg;base64,AAAA".
Proof.
  cbv zeta. split; [|split].
  - apply (frozen_frame_matches_request (Samples.page "AAAA") E_handleScan
             Samples.ready (K_analyzeImageAndCreatePlan "AAAA") "AAAA"
             eq_refl).
    reflexivity.
  - apply (frozen_frame_matches_request (Samples.page "BBBB")
             (E_handleVideoClick Samples.centre) Samples.guide
             (K_identifyComponentAtPoint "BBBB"
                (xPct (Number.ofZ 110) Samples.container) (yPct (Number.ofZ 220) Samples.container)
                "Lamp")
             "BBBB" eq_refl).
    reflexivity.
  - apply (frozen_frame_matches_request (Samples.page "CCCC")
             (E_handleVideoClick Samples.outside)
             (step (Samples.page "AAAA") E_handleScan Samples.ready)
             (K_analyzeImageAndCreatePlan "AAAA") "AAAA" eq_refl);
      [split|..]; reflexivity.
Defined.

(** C6 (as stated) fails.  [closeInspector] clears the frozen frame while
    the identification request is in flight, and a verdict that arrives
    during a later scan clears it, or replaces it by the frame it checked,
    while the plan request is in flight; the events of the latter two
    traces are all offered by the page. *)
Lemma frozen_frame_lost_in_flight :
  (let w := run [(Samples.page "BBBB", E_handleVideoClick Samples.centre);
                 (Samples.page "CCCC", E_closeInspector)] Samples.guide in
   (exists xp yp,
      awaiting w = [K_identifyComponentAtPoint "BBBB" xp yp "Lamp"])
   /\ capturedImage (session w) = None
   /\ liveFeedVisible (session w) = true
   /\ ~ frozenMatchesInFlight w)
  /\ (let w := run (Samples.overtakenDuringScan true) initialWorld in
      offeredTrace (Samples.overtakenDuringScan true) initialWorld = true
      /\ awaiting w = [K_analyzeImageAndCreatePlan "DDDD"]
      /\ liveFeedVisible (session w) = true
      /\ ~ frozenMatchesInFlight w)
  /\ (let w := run (Samples.overtakenDuringScan false) initialWorld in
      offeredTrace (Samples.overtakenDuringScan false) initialWorld = true
      /\ awaiting w = [K_analyzeImageAndCreatePlan "DDDD"]
      /\ capturedImage (session w) = Some "data:image/jpeg;base64,CCCC"
      /\ ~ frozenMatchesInFlight w).
Proof.
  cbv zeta. repeat split.
  - eexists _, _. reflexivity.
  - intros H.
    specialize (H _ "BBBB" (or_introl eq_refl) eq_refl). discriminate H.
  - intros H.
    specialize (H _ "DDDD" (or_introl eq_refl) eq_refl). discriminate H.
  - intros H.
    specialize (H _ "DDDD" (or_introl eq_refl) eq_refl). discriminate H.
Qed.

(** ** C7, C10: the coordinates of a tap *)

(** A tap in the guide stores its percentages, whether or not a frame can
    be captured afterwards. *)
Lemma tap_sets_inspectorPoint dom w plan e clientX clientY rect :
  appState (session w) = REPAIR_GUIDE ->
  repairPlan (session w) = Some plan ->
  clientXY e = Some (clientX, clientY) ->
  containerRef dom = Some rect ->
  inspectorPoint (session (step dom (E_handleVideoClick e) w))
  = Some {| x := xPct clientX rect; y := yPct clientY rect |}.
Proof.
  intros Hstate Hplan Hxy Hrect. open_world w. subst.
  forward. split_tests; reflexivity.
Qed.

(** A mouse event and a touch event whose first touch is at the same
    place are read alike. *)
Lemma first_touch_is_authoritative clientX clientY touches :
  clientXY (TouchEvent ((clientX, clientY) :: touches))
  = clientXY (MouseEvent clientX clientY).
Proof. reflexivity. Qed.

(** A finite number minus itself is +0. *)
Lemma sub_diag a : isFinite a = true -> Number.sub a a = S754_zero false.
Proof.
  destruct a as [[|]| | |s m e]; intros H; try discriminate H;
    try reflexivity.
  unfold Number.sub, SFsub. cbv zeta. rewrite Z.sub_diag. reflexivity.
Qed.

(** A local coordinate over a size of zero: infinite, or not a number. *)
Lemma pct_of_zero_size offset size :
  (exists s, size = S754_zero s) ->
  let r := Number.mul (Number.div offset size) (Number.ofZ 100) in
  r = S754_nan \/ exists s, r = S754_infinity s.
Proof.
  intros [s ->]. cbv zeta.
  change (Number.ofZ 100) with (S754_finite false 7036874417766400 (-46)).
  destruct offset as [so| so| |so mo eo]; cbn;
    solve [now left | right; eexists; reflexivity].
Qed.

(** C7 (as amended).  The point an inspection records is a function of
    the tap and of the box of the container alone:
    [x = ((clientX - left) / width) * 100] and
    [y = ((clientY - top) / height) * 100], computed in binary64 in this
    order.  On a 200 x 400 container a tap 100 right of and 200 below the
    corner is mapped to exactly (50, 50); a tap on the corner of a
    container of finite position is mapped to (0, 0); over a width or
    height of zero the coordinate is infinite or not a number. *)
Theorem coordinate_mapper dom w plan e clientX clientY rect :
  appState (session w) = REPAIR_GUIDE ->
  repairPlan (session w) = Some plan ->
  clientXY e = Some (clientX, clientY) ->
  containerRef dom = Some rect ->
  let p := {| x := xPct clientX rect; y := yPct clientY rect |} in
  inspectorPoint (session (step dom (E_handleVideoClick e) w)) = Some p
  /\ x p
     = Number.mul (Number.div (Number.sub clientX (left rect)) (width rect))
         (Number.ofZ 100)
  /\ y p
     = Number.mul (Number.div (Number.sub clientY (top rect)) (height rect))
         (Number.ofZ 100)
  /\ (width rect = Number.ofZ 200 -> height rect = Number.ofZ 400 ->
      (Number.sub clientX (left rect) = Number.ofZ 100 ->
       Number.sub clientY (top rect) = Number.ofZ 200 ->
       x p = Number.ofZ 50 /\ y p = Number.ofZ 50)
      /\ (clientX = left rect -> clientY = top rect ->
          isFinite (left rect) = true -> isFinite (top rect) = true ->
          x p = Number.ofZ 0 /\ y p = Number.ofZ 0))
  /\ ((exists s, width rect = S754_zero s) ->
      x p = S754_nan \/ exists s, x p = S754_infinity s)
  /\ ((exists s, height rect = S754_zero s) ->
      y p = S754_nan \/ exists s, y p = S754_infinity s).
Proof.
  intros Hstate Hplan Hxy Hrect p.
  split; [now apply tap_sets_inspectorPoint with (plan := plan)|].
  split; [reflexivity|]. split; [reflexivity|].
  split; [|split].
  - intros Hw Hh. unfold p, xPct, yPct; cbn [x y]; cbv zeta. split.
    + intros Hx Hy. rewrite Hw, Hh, Hx, Hy. split; reflexivity.
    + intros Hx Hy Hfx Hfy. subst clientX clientY.
      rewrite Hw, Hh, !sub_diag by assumption. split; reflexivity.
  - intros Hw. apply (pct_of_zero_size _ _ Hw).
  - intros Hh. apply (pct_of_zero_size _ _ Hh).
Qed.

Lemma coordinate_mapper_witness :
  let w' := step (Samples.page "BBBB") (E_handleVideoClick Samples.centre)
              Samples.guide in
  inspectorPoint (session w')
  = Some {| x := Number.ofZ 50; y := Number.ofZ 50 |}.
Proof.
  cbv zeta.
  destruct (coordinate_mapper (Samples.page "BBBB") Samples.guide
              Samples.lampPlan Samples.centre
              (Number.ofZ 110) (Number.ofZ 220) Samples.container
              eq_refl eq_refl eq_refl eq_refl)
    as (Hp & _ & _ & H & _).
  destruct (H eq_refl eq_refl) as [Hcentre _].
  destruct (Hcentre eq_refl eq_refl) as [Hx Hy].
  rewrite Hp. cbn [x y] in Hx, Hy. now rewrite Hx, Hy.
Defined.

(** C7 (as stated) fails: for a tap 7 right of the corner of a container
    25 wide the code records 28.000000000000004, while
    [100*(clientX - left)/width] is 28. *)
Lemma mapper_differs_from_the_formula :
  let tap := MouseEvent (Number.ofZ 7) (Number.ofZ 0) in
  let w' := step (Samples.pageOf Samples.narrow "BBBB")
              (E_handleVideoClick tap) Samples.guide in
  exists p,
    inspectorPoint (session w') = Some p
    /\ x p = S754_finite false 7881299347898369 (-48)
    /\ specPct (Number.ofZ 7) (left Samples.narrow) (width Samples.narrow)
       = Number.ofZ 28
    /\ Number.ofZ 28 = S754_finite false 7881299347898368 (-48)
    /\ x p
       <> specPct (Number.ofZ 7) (left Samples.narrow)
            (width Samples.narrow).
Proof.
  cbv zeta. eexists. split; [reflexivity|]. cbn [x].
  repeat split; try reflexivity.
  vm_compute. discriminate.
Qed.







(** ** C9: listening without a stream *)

(** C9 (as amended).  [startListening] called when the video element is
    not mounted, has no stream, or has a stream without an audio track
    fails silently: no recorder is made, no recording starts, nothing is
    parked or spoken.  Of the state variables it changes two, which it
    writes before it looks for the stream: [isListening] becomes [true]
    and the assistant text ["Listening..."]. *)
Theorem startListening_without_stream dom w :
  videoRef dom = false \/ srcObject w = None
  \/ srcObject w = Some {| getAudioTracks := [] |} ->
  let w' := step dom E_startListening w in
  (isListening (session w') = true
   /\ assistantResponse (session w') = Some "Listening...")
  /\ (mediaRecorderRef w' = mediaRecorderRef w
      /\ audioChunksRef w' = audioChunksRef w
      /\ srcObject w' = srcObject w
      /\ awaiting w' = awaiting w
      /\ spoken w' = spoken w)
  /\ (appState (session w') = appState (session w)
      /\ repairPlan (session w') = repairPlan (session w)
      /\ currentStepIndex (session w') = currentStepIndex (session w)
      /\ errorMsg (session w') = errorMsg (session w)
      /\ cameraActive (session w') = cameraActive (session w)
      /\ capturedImage (session w') = capturedImage (session w)
      /\ inspectorPoint (session w') = inspectorPoint (session w)
      /\ componentInfo (session w') = componentInfo (session w)).
Proof.
  intros H. open_world w.
  destruct H as [H | [H | H]]; try rewrite H; subst;
    split_tests; repeat split; discriminate.
Qed.

Lemma startListening_without_stream_witness :
  let w := Samples.guideWithoutStream in
  let w' := step (Samples.page "BBBB") E_startListening w in
  (isListening (session w') = true
   /\ assistantResponse (session w') = Some "Listening...")
  /\ mediaRecorderRef w' = None
  /\ awaiting w' = []
  /\ appState (session w') = REPAIR_GUIDE.
Proof.
  cbv zeta.
  destruct (startListening_without_stream (Samples.page "BBBB")
              Samples.guideWithoutStream (or_intror (or_introl eq_refl)))
    as (H1 & (H2 & _ & _ & H3 & _) & (H4 & _)).
  repeat split; try apply H1; assumption.
Defined.

(** C9 (as stated) fails: in the sample session whose video element has
    no stream, [startListening] starts no recording, yet it sets
    [isListening] and shows ["Listening..."]; [stopListening], which
    returns at once when there is no recorder, leaves both as they are. *)
Example startListening_without_stream_is_not_a_noop :
  let w := Samples.guideWithoutStream in
  let w' := step (Samples.page "BBBB") E_startListening w in
  let w'' := step (Samples.page "BBBB") E_stopListening w' in
  (isListening (session w) = false /\ assistantResponse (session w) = None)
  /\ (isListening (session w') = true
      /\ assistantResponse (session w') = Some "Listening..."
      /\ mediaRecorderRef w' = None)
  /\ w'' = w'
  /\ step (Samples.page "BBBB") E_startListening w <> w.
Proof. cbv zeta. repeat split. discriminate. Qed.

(** * Further properties of the handlers *)

(** ** Taps *)

(** X1.  A tap is ignored altogether unless the session is in
    [REPAIR_GUIDE] with a plan, the event has a position and the container
    is mounted: otherwise nothing in the world changes. *)
Theorem tap_ignored dom w e :
  appState (session w) <> REPAIR_GUIDE \/ repairPlan (session w) = None
  \/ clientXY e = None \/ containerRef dom = None ->
  step dom (E_handleVideoClick e) w = w.
Proof.
  intros H. open_world w.
  destruct H as [H | [H | [H | H]]].
  - destruct appState0; try reflexivity. now elim H.
  - subst. split_tests; reflexivity.
  - rewrite H. split_tests; reflexivity.
  - rewrite H. split_tests; reflexivity.
Qed.

Lemma tap_ignored_witness :
  step (Samples.page "BBBB") (E_handleVideoClick Samples.centre)
    Samples.ready = Samples.ready.
Proof.
  apply (tap_ignored (Samples.page "BBBB") Samples.ready Samples.centre).
  left. discriminate.
Defined.

(** ** Frame capture *)

Lemma split_noComma s : noComma s = true -> split "," s = [s].
Proof.
  induction s as [|a s IH]; simpl; [reflexivity|].
  intros H. apply andb_true_iff in H. destruct H as [Ha Hs].
  apply negb_true_iff in Ha. rewrite Ha, (IH Hs). reflexivity.
Qed.

Lemma split_at_comma s1 s2 :
  noComma s1 = true -> split "," (s1 ++ String "," s2) = s1 :: split "," s2.
Proof.
  induction s1 as [|a s1 IH]; simpl; [reflexivity|].
  intros H. apply andb_true_iff in H. destruct H as [Ha Hs].
  apply negb_true_iff in Ha. rewrite Ha, (IH Hs). reflexivity.
Qed.

(** X2.  When the canvas encodes the frame as a JPEG data URL whose
    payload is not empty and has no comma, [captureFrame] returns exactly
    that payload, and the frozen-frame URL built from it is the URL the
    canvas produced. *)
Theorem captureFrame_roundtrip dom base64 :
  videoRef dom = true -> canvasRef dom = Some true ->
  toDataURL dom = jpegDataUrl base64 ->
  noComma base64 = true -> base64 <> "" ->
  truthy (captureFrame dom) = Some base64
  /\ (forall payload,
        captureFrame dom = Some payload -> jpegDataUrl payload = toDataURL dom).
Proof.
  intros Hv Hc Hurl Hno Hne.
  assert (Hcap : captureFrame dom = Some base64).
  { unfold captureFrame. rewrite Hv, Hc, Hurl. cbn [negb].
    unfold jpegDataUrl.
    change ("data:image/jpeg;base64," ++ base64)
      with ("data:image/jpeg;base64" ++ String "," base64).
    rewrite split_at_comma by reflexivity.
    rewrite (split_noComma _ Hno). reflexivity. }
  split.
  - rewrite Hcap. destruct base64; [now elim Hne | reflexivity].
  - intros payload Hp. rewrite Hcap in Hp. inversion Hp; subst.
    symmetry; exact Hurl.
Qed.

Lemma captureFrame_roundtrip_witness :
  truthy (captureFrame (Samples.page "AAAA")) = Some "AAAA"
  /\ (forall payload,
        captureFrame (Samples.page "AAAA") = Some payload ->
        jpegDataUrl payload = toDataURL (Samples.page "AAAA")).
Proof.
  apply (captureFrame_roundtrip (Samples.page "AAAA") "AAAA");
    try reflexivity. discriminate.
Defined.

(** X3.  No frame can be captured when the video or the canvas is not
    mounted, when the canvas gives no 2d context, or when the encoded URL
    has an empty payload or no comma at all; a scan on such a page does
    nothing at all. *)
Theorem scan_needs_a_frame dom :
  videoRef dom = false \/ canvasRef dom = None \/ canvasRef dom = Some false
  \/ (exists s, noComma s = true
                /\ (toDataURL dom = s \/ toDataURL dom = s ++ ",")) ->
  truthy (captureFrame dom) = None
  /\ forall w, step dom E_handleScan w = w.
Proof.
  intros H.
  assert (Hcap : truthy (captureFrame dom) = None).
  { unfold captureFrame.
    destruct H as [H | [H | [H | (s & Hs & [H | H])]]]; rewrite H;
      try reflexivity;
      destruct (videoRef dom); cbn [negb]; try reflexivity;
      destruct (canvasRef dom) as [[|]|]; cbn [negb]; try reflexivity.
    - now rewrite (split_noComma _ Hs).
    - change (s ++ ",") with (s ++ String "," "").
      now rewrite (split_at_comma _ _ Hs). }
  split; [exact Hcap|].
  intros w. open_world w. forward. reflexivity.
Qed.

Lemma scan_needs_a_frame_witness :
  truthy (captureFrame Samples.blankPage) = None
  /\ forall w, step Samples.blankPage E_handleScan w = w.
Proof.
  apply scan_needs_a_frame. right; right; right.
  exists "data:". split; [reflexivity | right; reflexivity].
Defined.

(** ** Scan and reset *)

(** X4.  A scan whose plan request is rejected ends in [ERROR] with the
    diagnosis message; the plan and the cursor are as before, the frame
    that was sent stays frozen, and nothing stays parked. *)
Theorem scan_rejected dom0 dom1 w base64 :
  truthy (captureFrame dom0) = Some base64 ->
  let w' :=
    run [(dom0, E_handleScan);
         (dom1, E_resolve (length (awaiting w)) R_rejected)] w in
  appState (session w') = ERROR
  /\ errorMsg (session w')
     = Some "Gemini could not identify the issue. Please try again with better lighting."
  /\ repairPlan (session w') = repairPlan (session w)
  /\ currentStepIndex (session w') = currentStepIndex (session w)
  /\ capturedImage (session w') = Some (jpegDataUrl base64)
  /\ awaiting w' = awaiting w.
Proof.
  intros Hframe. unfold run. open_world w. forward. repeat split.
Qed.

Lemma scan_rejected_witness :
  let w' :=
    run [(Samples.page "AAAA", E_handleScan);
         (Samples.page "AAAA", E_resolve 0 R_rejected)] Samples.ready in
  appState (session w') = ERROR
  /\ errorMsg (session w')
     = Some "Gemini could not identify the issue. Please try again with better lighting."
  /\ repairPlan (session w') = None
  /\ currentStepIndex (session w') = 0
  /\ capturedImage (session w') = Some "data:image/jpeg;base64,AAAA"
  /\ awaiting w' = [].
Proof.
  exact (scan_rejected (Samples.page "AAAA") (Samples.page "AAAA")
           Samples.ready "AAAA" eq_refl).
Defined.

(** X5.  [resetApp] clears the plan, the cursor, the frozen frame, the
    error and the assistant text and goes to [CAMERA_READY]; it keeps the
    stream, the recorder and every parked continuation, and it leaves
    [isListening], [inspectorPoint] and [componentInfo] as they are.
    Resetting twice is resetting once. *)
Theorem resetApp_effect dom w :
  let w' := step dom E_resetApp w in
  (appState (session w') = CAMERA_READY
   /\ repairPlan (session w') = None
   /\ currentStepIndex (session w') = 0
   /\ capturedImage (session w') = None
   /\ errorMsg (session w') = None
   /\ assistantResponse (session w') = None)
  /\ (srcObject w' = srcObject w
      /\ mediaRecorderRef w' = mediaRecorderRef w
      /\ audioChunksRef w' = audioChunksRef w
      /\ awaiting w' = awaiting w
      /\ spoken w' = spoken w)
  /\ (isListening (session w') = isListening (session w)
      /\ inspectorPoint (session w') = inspectorPoint (session w)
      /\ componentInfo (session w') = componentInfo (session w)
      /\ cameraActive (session w') = cameraActive (session w))
  /\ step dom E_resetApp w' = w'.
Proof.
  open_world w. repeat split.
Qed.

(** ** Verification that cannot go on *)

(** X6.  When the timer of a verification finds no frame, the session is
    back in [REPAIR_GUIDE] with no request sent and the cursor, the plan
    and the assistant text untouched; the frozen frame was cleared when
    the verification started and stays cleared. *)
Theorem verification_without_frame dom0 dom1 w :
  truthy (captureFrame dom1) = None ->
  let w' :=
    run [(dom0, E_handleVerifyStep);
         (dom1, E_resolve (length (awaiting w)) R_elapsed)] w in
  appState (session w') = REPAIR_GUIDE
  /\ capturedImage (session w') = None
  /\ awaiting w' = awaiting w
  /\ repairPlan (session w') = repairPlan (session w)
  /\ currentStepIndex (session w') = currentStepIndex (session w)
  /\ assistantResponse (session w') = assistantResponse (session w)
  /\ spoken w' = spoken w.
Proof.
  intros Hframe. unfold run. open_world w. forward. repeat split.
Qed.

Lemma verification_without_frame_witness :
  let w' :=
    run [(Samples.page "BBBB", E_handleVerifyStep);
         (Samples.blankPage, E_resolve 0 R_elapsed)] Samples.guide in
  appState (session w') = REPAIR_GUIDE
  /\ capturedImage (session w') = None
  /\ awaiting w' = []
  /\ repairPlan (session w') = Some Samples.lampPlan
  /\ currentStepIndex (session w') = 0
  /\ assistantResponse (session w') = None
  /\ spoken w' = [].
Proof.
  exact (verification_without_frame (Samples.page "BBBB") Samples.blankPage
           Samples.guide eq_refl).
Defined.

(** ** Walking through the steps *)

Lemma one_press dom w plan :
  repairPlan (session w) = Some plan ->
  let i := currentStepIndex (session w) in
  let n := length (steps plan) in
  let w' := step dom E_handleNextStep w in
  repairPlan (session w') = Some plan
  /\ assistantResponse (session w') = None
  /\ (i + 1 < n ->
      currentStepIndex (session w') = i + 1
      /\ appState (session w') = REPAIR_GUIDE)
  /\ (n <= i + 1 ->
      currentStepIndex (session w') = i
      /\ appState (session w') = COMPLETED).
Proof.
  intros Hplan. open_world w. subst. forward.
  split_tests; tidy; repeat split; try lia.
Qed.

Lemma presses_walk rest :
  forall dom w plan,
    repairPlan (session w) = Some plan ->
    let i := currentStepIndex (session w) in
    let n := length (steps plan) in
    let k := S (length rest) in
    let w' := run (presses (dom :: rest)) w in
    repairPlan (session w') = Some plan
    /\ assistantResponse (session w') = None
    /\ (i + k < n ->
        currentStepIndex (session w') = i + k
        /\ appState (session w') = REPAIR_GUIDE)
    /\ (n <= i + k ->
        currentStepIndex (session w') = Nat.max i (n - 1)
        /\ appState (session w') = COMPLETED).
Proof.
  induction rest as [|dom' rest IH]; intros dom w plan Hplan; cbn zeta.
  - destruct (one_press dom w plan Hplan) as (Hp & Ha & Hlt & Hge).
    cbn [presses map run length].
    split; [assumption | split; [assumption | split; intros H; split]].
    + apply Hlt; lia.
    + apply Hlt; lia.
    + destruct Hge as [Hi _]; [lia|]. rewrite Hi. lia.
    + apply Hge; lia.
  - destruct (one_press dom w plan Hplan) as (Hp & _ & Hlt & Hge).
    change (run (presses (dom :: dom' :: rest)) w)
      with (run (presses (dom' :: rest)) (step dom E_handleNextStep w)).
    destruct (IH dom' (step dom E_handleNextStep w) plan Hp)
      as (Hp' & Ha' & Hlt' & Hge').
    cbn [length] in *.
    split; [assumption | split; [assumption | split; intros H; split]].
    + destruct Hlt as [Hi _]; [lia|]. rewrite Hi in Hlt'.
      destruct Hlt' as [Hi' _]; [lia|]. rewrite Hi'. lia.
    + destruct Hlt as [Hi _]; [lia|]. rewrite Hi in Hlt'.
      apply Hlt'. lia.
    + destruct (Nat.lt_ge_cases (currentStepIndex (session w) + 1)
                  (length (steps plan))) as [Hc | Hc].
      * destruct Hlt as [Hi _]; [exact Hc|]. rewrite Hi in Hge'.
        destruct Hge' as [Hi' _]; [lia|]. rewrite Hi'. lia.
      * destruct Hge as [Hi _]; [exact Hc|]. rewrite Hi in Hge'.
        destruct Hge' as [Hi' _]; [lia|]. rewrite Hi'. lia.
    + destruct (Nat.lt_ge_cases (currentStepIndex (session w) + 1)
                  (length (steps plan))) as [Hc | Hc].
      * destruct Hlt as [Hi _]; [exact Hc|]. rewrite Hi in Hge'.
        apply Hge'. lia.
      * destruct Hge as [Hi _]; [exact Hc|]. rewrite Hi in Hge'.
        apply Hge'. lia.
Qed.

(** X8.  Calling [handleNextStep] k >= 1 times on a session with a plan
    of n steps and the cursor on i puts the cursor on i + k and the
    session in [REPAIR_GUIDE] as long as i + k < n; from then on the
    session is [COMPLETED] and the cursor stays on the last step it
    reached (on i itself when i was not below n - 1, as with a plan
    without steps).  The plan is kept and the assistant text cleared. *)
Theorem next_presses doms w plan :
  repairPlan (session w) = Some plan ->
  doms <> [] ->
  let i := currentStepIndex (session w) in
  let n := length (steps plan) in
  let k := length doms in
  let w' := run (presses doms) w in
  (i + k < n ->
     currentStepIndex (session w') = i + k
     /\ appState (session w') = REPAIR_GUIDE)
  /\ (n <= i + k ->
      currentStepIndex (session w') = Nat.max i (n - 1)
      /\ appState (session w') = COMPLETED)
  /\ repairPlan (session w') = Some plan
  /\ assistantResponse (session w') = None.
Proof.
  intros Hplan Hne. cbn zeta.
  destruct doms as [|dom rest]; [now elim Hne|].
  destruct (presses_walk rest dom w plan Hplan) as (Hp & Ha & Hlt & Hge).
  cbn [length]. split; [intros H; split | split; [intros H; split | split; assumption]].
  - now apply Hlt.
  - now apply Hlt.
  - now apply Hge.
  - now apply Hge.
Qed.

Lemma next_presses_witness :
  let two := [Samples.page "BBBB"; Samples.page "CCCC"] in
  let w' := run (presses two) Samples.guide in
  currentStepIndex (session w') = 1
  /\ appState (session w') = COMPLETED
  /\ repairPlan (session w') = Some Samples.lampPlan
  /\ assistantResponse (session w') = None.
Proof.
  cbv zeta.
  destruct (next_presses [Samples.page "BBBB"; Samples.page "CCCC"]
              Samples.guide Samples.lampPlan eq_refl)
    as (_ & H & Hp & Ha); [discriminate|].
  destruct H as [Hi Hs]; [simpl; lia|].
  repeat split; assumption.
Defined.

(** ** What the events never do *)

(** X9.  The plan is replaced only by [resetApp] and by the arrival of a
    new plan: every other event leaves [repairPlan] as it is. *)
Theorem plan_is_kept dom ev w :
  rewinds ev = false ->
  repairPlan (session (step dom ev w)) = repairPlan (session w).
Proof.
  intros Hr. open_world w.
  destruct ev; try discriminate Hr; split_tests; try discriminate;
    reflexivity.
Qed.

Lemma plan_is_kept_witness :
  repairPlan
    (session (step (Samples.page "BBBB") (E_handleVideoClick Samples.centre)
                Samples.guide))
  = Some Samples.lampPlan.
Proof.
  exact (plan_is_kept (Samples.page "BBBB")
           (E_handleVideoClick Samples.centre) Samples.guide eq_refl).
Defined.

(** X10.  No handler called from the page cancels a request: a page event
    leaves the parked continuations as they are or parks one more behind
    them.  A resumed continuation is the only one taken out, and at most
    one is parked in its place. *)
Theorem nothing_is_cancelled dom ev w :
  (isResolve ev = false ->
     awaiting (step dom ev w) = awaiting w
     \/ exists k, awaiting (step dom ev w) = (awaiting w ++ [k])%list)
  /\ (forall i r, ev = E_resolve i r ->
        awaiting (step dom ev w) = awaiting w
        \/ awaiting (step dom ev w) = remove_nth i (awaiting w)
        \/ exists k,
             awaiting (step dom ev w)
             = (remove_nth i (awaiting w) ++ [k])%list).
Proof.
  split.
  - intros Hres. open_world w.
    destruct ev; try discriminate Hres; split_tests;
      solve [now left | right; eexists; reflexivity].
  - intros i r ->. open_world w. split_tests;
      solve [now left | right; now left
            | right; right; eexists; reflexivity].
Qed.

(** ** The error panel *)

Lemma step_explains_error dom ev w :
  errorIsExplained (session w) -> errorIsExplained (session (step dom ev w)).
Proof.
  unfold errorIsExplained. intros Hinv. open_world w.
  destruct ev; split_tests; intros Herr; try discriminate Herr;
    try (now apply Hinv); auto.
Qed.

Lemma run_explains_error trace :
  forall w,
    errorIsExplained (session w) ->
    errorIsExplained (session (run trace w)).
Proof.
  induction trace as [|[dom ev] rest IH]; intros w Hw; simpl.
  - exact Hw.
  - apply IH. now apply step_explains_error.
Qed.

(** X11.  Whatever the events, and in whatever order they come, a session
    in [ERROR] carries one of the two messages the handlers write, so the
    error panel never falls back on ["An unknown error occurred."]. *)
Theorem error_is_explained (trace : list (Dom * Event)) :
  let s := session (run trace initialWorld) in
  appState s = ERROR ->
  errorPanelText s = "Camera/Mic access denied. Please enable permissions."
  \/ errorPanelText s
     = "Gemini could not identify the issue. Please try again with better lighting.".
Proof.
  cbn zeta. intros Herr.
  assert (Hinv : errorIsExplained (session (run trace initialWorld))).
  { apply run_explains_error. intros H; discriminate H. }
  unfold errorPanelText.
  destruct (Hinv Herr) as [H | H]; rewrite H; [left | right]; reflexivity.
Qed.

Lemma error_is_explained_witness :
  let s :=
    session (run [(Samples.blankPage, E_startCamera);
                  (Samples.blankPage, E_resolve 0 R_rejected)]
               initialWorld) in
  appState s = ERROR
  /\ (errorPanelText s
      = "Camera/Mic access denied. Please enable permissions."
      \/ errorPanelText s
         = "Gemini could not identify the issue. Please try again with better lighting.").
Proof.
  cbv zeta. split; [reflexivity|].
  exact (error_is_explained
           [(Samples.blankPage, E_startCamera);
            (Samples.blankPage, E_resolve 0 R_rejected)] eq_refl).
Defined.

(** ** The moves of [appState] *)

(** X12.  An event the page offers either leaves [appState] as it is or
    moves it along an [edge]: a control of the page moves the session only
    out of the state it is drawn in ([INTRO] to [CAMERA_READY], ...,
    [INSPECTING] to [REPAIR_GUIDE], reset from the guide, the completion
    and the error screens), and a resumed continuation only into
    [REPAIR_GUIDE], [COMPLETED] or [ERROR]. *)
Theorem state_moves_along_edges dom ev w :
  offered (session w) ev = true ->
  appState (session (step dom ev w)) = appState (session w)
  \/ edge ev (appState (session w)) (appState (session (step dom ev w)))
     = true.
Proof.
  unfold offered, stepCardRendered. intros Hoff. open_world w.
  destruct ev; destruct appState0; try discriminate Hoff;
    split_tests; try (now left); try (now right).
Qed.

Lemma state_moves_along_edges_witness :
  appState (session (step (Samples.page "BBBB") E_handleVerifyStep
                       Samples.guide)) = VERIFYING
  /\ edge E_handleVerifyStep REPAIR_GUIDE VERIFYING = true.
Proof.
  split; [reflexivity|].
  destruct (state_moves_along_edges (Samples.page "BBBB") E_handleVerifyStep
              Samples.guide eq_refl) as [H | H].
  - discriminate H.
  - exact H.
Defined.

(** ** Drawing the overlay *)

Example overtaken_reaches_pastTheEnd :
  session (run (Samples.overtaken true) initialWorld) = Samples.pastTheEnd.
Proof. reflexivity. Qed.

(** X13.  Along every timely trace the overlay can be drawn: reading the
    cue of the current step never throws.  (On the session the overtaken
    verification leaves behind it does.) *)
Theorem overlay_can_be_drawn (trace : list (Dom * Event)) dom :
  timelyTrace trace initialWorld ->
  overlayCue dom (session (run trace initialWorld)) <> Threw.
Proof.
  intros Ht.
  assert (Hb : cursorInBounds (session (run trace initialWorld)))
    by (apply run_bounds; [exact I | exact Ht]).
  unfold overlayCue, cursorInBounds in *.
  destruct (AppState_eqb _ _); [|discriminate].
  destruct (repairPlan _) as [plan|]; [|discriminate].
  destruct (videoRef dom); [|discriminate].
  destruct (nth_error _ _) eqn:E; [discriminate|].
  apply nth_error_None in E. lia.
Qed.

Lemma overlay_can_be_drawn_witness :
  overlayCue (Samples.page "BBBB")
    (session (run Samples.toGuide initialWorld)) <> Threw.
Proof.
  apply (overlay_can_be_drawn Samples.toGuide (Samples.page "BBBB")).
  simpl. repeat split; discriminate.
Defined.

Example overlay_throws_past_the_end :
  overlayCue (Samples.page "BBBB") Samples.pastTheEnd = Threw.
Proof. reflexivity. Qed.

(** ** The inspector, opened and closed *)

(** X14.  An inspection that gets its answer shows it: the session is in
    [INSPECTING] with the tapped point, the frozen frame and the
    component, whose name is spoken.  Closing it then leaves
    [inspectorPoint], [componentInfo] and [capturedImage] cleared and the
    seven other state variables as they were before the tap, with nothing
    parked. *)
Theorem inspect_then_close
    dom0 dom1 dom2 w plan e clientX clientY rect base64 info :
  appState (session w) = REPAIR_GUIDE ->
  repairPlan (session w) = Some plan ->
  clientXY e = Some (clientX, clientY) ->
  containerRef dom0 = Some rect ->
  truthy (captureFrame dom0) = Some base64 ->
  let i := length (awaiting w) in
  let shown := run [(dom0, E_handleVideoClick e);
                    (dom1, E_resolve i (R_info info))] w in
  let closed := inspectAndClose dom0 dom1 dom2 e info w in
  (appState (session shown) = INSPECTING
   /\ inspectorRendered (session shown) = true
   /\ inspectorPoint (session shown)
      = Some {| x := xPct clientX rect; y := yPct clientY rect |}
   /\ componentInfo (session shown) = Some info
   /\ capturedImage (session shown) = Some (jpegDataUrl base64)
   /\ spoken shown
      = (if speechSynthesis dom1
         then ("That is the " ++ name info ++ ".") :: spoken w
         else spoken w))
  /\ (appState (session closed) = REPAIR_GUIDE
      /\ inspectorPoint (session closed) = None
      /\ componentInfo (session closed) = None
      /\ capturedImage (session closed) = None
      /\ repairPlan (session closed) = Some plan
      /\ currentStepIndex (session closed) = currentStepIndex (session w)
      /\ assistantResponse (session closed) = assistantResponse (session w)
      /\ errorMsg (session closed) = errorMsg (session w)
      /\ cameraActive (session closed) = cameraActive (session w)
      /\ isListening (session closed) = isListening (session w)
      /\ awaiting closed = awaiting w).
Proof.
  intros Hstate Hplan Hxy Hrect Hframe.
  unfold inspectAndClose, run, inspectorRendered.
  open_world w. subst. forward.
  destruct (speechSynthesis dom1); eval_handlers; repeat split.
Qed.

Lemma inspect_then_close_witness :
  let shown :=
    run [(Samples.page "BBBB", E_handleVideoClick Samples.centre);
         (Samples.page "CCCC", E_resolve 0 (R_info Samples.socket))]
      Samples.guideLastStep in
  let closed :=
    inspectAndClose (Samples.page "BBBB") (Samples.page "CCCC")
      (Samples.page "DDDD") Samples.centre Samples.socket
      Samples.guideLastStep in
  (appState (session shown) = INSPECTING
   /\ componentInfo (session shown) = Some Samples.socket
   /\ spoken shown = ["That is the socket."])
  /\ (inspectorPoint (session closed) = None
      /\ componentInfo (session closed) = None
      /\ capturedImage (session closed) = None
      /\ appState (session closed) = REPAIR_GUIDE
      /\ currentStepIndex (session closed) = 1).
Proof.
  cbv zeta.
  destruct (inspect_then_close
              (Samples.page "BBBB") (Samples.page "CCCC") (Samples.page "DDDD")
              Samples.guideLastStep Samples.lampPlan Samples.centre
              (Number.ofZ 110) (Number.ofZ 220) Samples.container "BBBB"
              Samples.socket eq_refl eq_refl eq_refl eq_refl eq_refl)
    as ((H1 & _ & _ & H3 & _ & H5)
        & (Hs & Hp & Hi & Hc & _ & Hx & _)).
  repeat split; assumption.
Defined.

(** ** The camera *)

(** X15.  [startCamera] shows the camera screen at once, before the
    stream is there.  When [getUserMedia] resolves, the stream is attached
    to the video element if it is mounted; when it is rejected the session
    goes to [ERROR] with the permission message, no stream is attached and
    [cameraActive] stays set. *)
Theorem startCamera_outcomes dom0 dom1 w stream :
  let asked := step dom0 E_startCamera w in
  let granted := startCameraThen dom0 dom1 (R_stream stream) w in
  let denied := startCameraThen dom0 dom1 R_rejected w in
  (appState (session asked) = CAMERA_READY
   /\ cameraActive (session asked) = true
   /\ srcObject asked = srcObject w
   /\ awaiting asked = (awaiting w ++ [K_getUserMedia])%list)
  /\ (appState (session granted) = CAMERA_READY
      /\ srcObject granted
         = (if videoRef dom1 then Some stream else srcObject w)
      /\ errorMsg (session granted) = errorMsg (session w)
      /\ awaiting granted = awaiting w)
  /\ (appState (session denied) = ERROR
      /\ errorMsg (session denied)
         = Some "Camera/Mic access denied. Please enable permissions."
      /\ cameraActive (session denied) = true
      /\ srcObject denied = srcObject w
      /\ awaiting denied = awaiting w).
Proof.
  unfold startCameraThen, run. open_world w. forward.
  destruct (videoRef dom1); eval_handlers; repeat split.
Qed.

(** ** The voice pipeline *)

Lemma run_app t1 :
  forall t2 w, run (t1 ++ t2) w = run t2 (run t1 w).
Proof.
  induction t1 as [|[dom ev] t1 IH]; intros t2 w; simpl; [reflexivity|].
  apply IH.
Qed.

Lemma delivered_accumulates dom chunks :
  forall w recorder,
    mediaRecorderRef w = Some recorder ->
    let w' := run (delivered dom chunks) w in
    audioChunksRef w' = (audioChunksRef w ++ chunks)%list
    /\ session w' = session w
    /\ srcObject w' = srcObject w
    /\ mediaRecorderRef w' = Some recorder
    /\ awaiting w' = awaiting w
    /\ spoken w' = spoken w.
Proof.
  induction chunks as [|data rest IH]; intros w recorder Hrec; cbn zeta.
  - simpl. rewrite app_nil_r. repeat split. exact Hrec.
  - cbn [delivered map run]. fold (delivered dom rest).
    assert (Hstep : let w1 := step dom (E_ondataavailable data) w in
              audioChunksRef w1 = (audioChunksRef w ++ [data])%list
              /\ session w1 = session w /\ srcObject w1 = srcObject w
              /\ mediaRecorderRef w1 = Some recorder
              /\ awaiting w1 = awaiting w /\ spoken w1 = spoken w).
    { cbn zeta. open_world w. subst. repeat split. }
    cbn zeta in Hstep. destruct Hstep as (Ha & Hs & Ho & Hm & Hw & Hp).
    destruct (IH _ recorder Hm) as (Ha' & Hs' & Ho' & Hm' & Hw' & Hp').
    rewrite Ha', Ha, <- app_assoc, Hs', Hs, Ho', Ho, Hw', Hw, Hp', Hp.
    repeat split. exact Hm'.
Qed.

(** X16.  With a stream that has an audio track, [startListening] starts a
    fresh clip (the chunks of an earlier recording are dropped), the
    chunks the recorder delivers are kept in the order they arrive, and
    [stopListening] stops the recorder, clears [isListening], shows
    ["Thinking..."] and waits for the clip to be encoded, with the plan
    and the cursor of the moment. *)
Theorem recording_a_clip dom0 dom1 dom2 chunks w stream audioTrack others :
  videoRef dom0 = true ->
  srcObject w = Some stream ->
  getAudioTracks stream = audioTrack :: others ->
  let w' := recordClip dom0 dom1 dom2 chunks w in
  audioChunksRef w' = chunks
  /\ mediaRecorderRef w' = Some {| recording := false |}
  /\ isListening (session w') = false
  /\ assistantResponse (session w') = Some "Thinking..."
  /\ awaiting w'
     = (awaiting w
        ++ [K_onloadend (repairPlan (session w))
              (currentStepIndex (session w))])%list
  /\ appState (session w') = appState (session w)
  /\ repairPlan (session w') = repairPlan (session w)
  /\ currentStepIndex (session w') = currentStepIndex (session w).
Proof.
  intros Hv Hs Ht. unfold recordClip.
  change (run ((dom0, E_startListening)
               :: delivered dom1 chunks ++ [(dom2, E_stopListening)]) w)
    with (run (delivered dom1 chunks ++ [(dom2, E_stopListening)])
            (step dom0 E_startListening w)).
  assert (Hstart : let w1 := step dom0 E_startListening w in
            mediaRecorderRef w1 = Some {| recording := true |}
            /\ audioChunksRef w1 = []
            /\ awaiting w1 = awaiting w
            /\ appState (session w1) = appState (session w)
            /\ repairPlan (session w1) = repairPlan (session w)
            /\ currentStepIndex (session w1) = currentStepIndex (session w)).
  { cbn zeta. open_world w. subst. forward. repeat split. }
  cbn zeta in Hstart. destruct Hstart as (Hm & Ha & Hw & Hst & Hp & Hi).
  set (w1 := step dom0 E_startListening w) in *.
  rewrite run_app.
  destruct (delivered_accumulates dom1 chunks w1 _ Hm)
    as (Ha' & Hs' & Ho' & Hm' & Hw' & Hp').
  set (w2 := run (delivered dom1 chunks) w1) in *.
  rewrite Ha in Ha'. cbn [app] in Ha'.
  rewrite <- Hs' in Hst, Hp, Hi. rewrite Hw in Hw'.
  rewrite <- Hst, <- Hp, <- Hi, <- Hw'.
  clearbody w2. clear - Ha' Hm'.
  cbn [run]. open_world w2. subst. forward. repeat split.
Qed.

Lemma recording_a_clip_witness :
  let w' :=
    recordClip (Samples.page "BBBB") (Samples.page "BBBB")
      (Samples.page "CCCC") ["one"; "two"; "three"] Samples.guide in
  audioChunksRef w' = ["one"; "two"; "three"]
  /\ mediaRecorderRef w' = Some {| recording := false |}
  /\ isListening (session w') = false
  /\ assistantResponse (session w') = Some "Thinking..."
  /\ awaiting w' = [K_onloadend (Some Samples.lampPlan) 0]
  /\ appState (session w') = REPAIR_GUIDE
  /\ repairPlan (session w') = Some Samples.lampPlan
  /\ currentStepIndex (session w') = 0.
Proof.
  exact (recording_a_clip (Samples.page "BBBB") (Samples.page "BBBB")
           (Samples.page "CCCC") ["one"; "two"; "three"] Samples.guide
           Samples.mic "microphone" [] eq_refl eq_refl eq_refl).
Defined.

(** X17.  A question asked while a clip is being recorded, on a session
    with a plan whose cursor is on a step and a page that has a frame, is
    sent with that frame, with the payload of the encoded clip and with
    the instruction of the current step; the answer becomes the assistant
    text and is spoken.  The plan, the cursor and [appState] are not
    touched. *)
Theorem question_is_answered
    dom0 dom1 dom2 w plan currentStep base64Image result response :
  mediaRecorderRef w = Some {| recording := true |} ->
  repairPlan (session w) = Some plan ->
  nth_error (steps plan) (currentStepIndex (session w)) = Some currentStep ->
  truthy (captureFrame dom1) = Some base64Image ->
  let i := length (awaiting w) in
  let asked := run [(dom0, E_stopListening);
                    (dom1, E_resolve i (R_readerResult result))] w in
  let w' := askAssistant dom0 dom1 dom2 result response w in
  awaiting asked
  = (awaiting w
     ++ [K_askRepairAssistant base64Image (nth_error (split "," result) 1)
           (instruction currentStep)])%list
  /\ assistantResponse (session asked) = Some "Thinking..."
  /\ assistantResponse (session w') = Some response
  /\ spoken w'
     = (if speechSynthesis dom2 then response :: spoken w else spoken w)
  /\ isListening (session w') = false
  /\ appState (session w') = appState (session w)
  /\ repairPlan (session w') = Some plan
  /\ currentStepIndex (session w') = currentStepIndex (session w)
  /\ awaiting w' = awaiting w.
Proof.
  intros Hrec Hplan Hstep Hframe. unfold askAssistant, run.
  open_world w. subst. cbn [recording]. forward.
  destruct (speechSynthesis dom2); eval_handlers; repeat split.
Qed.

Lemma question_is_answered_witness :
  let asked :=
    run [(Samples.page "BBBB", E_stopListening);
         (Samples.page "CCCC",
          E_resolve 0 (R_readerResult "data:audio/wav;base64,UklGRg"))]
      Samples.listening in
  let w' :=
    askAssistant (Samples.page "BBBB") (Samples.page "CCCC")
      (Samples.page "DDDD") "data:audio/wav;base64,UklGRg"
      "Turn it clockwise." Samples.listening in
  awaiting asked
  = [K_askRepairAssistant "CCCC" (Some "UklGRg") "Remove the cover"]
  /\ assistantResponse (session asked) = Some "Thinking..."
  /\ assistantResponse (session w') = Some "Turn it clockwise."
  /\ spoken w' = ["Turn it clockwise."]
  /\ isListening (session w') = false
  /\ appState (session w') = REPAIR_GUIDE
  /\ repairPlan (session w') = Some Samples.lampPlan
  /\ currentStepIndex (session w') = 0
  /\ awaiting w' = [].
Proof.
  exact (question_is_answered
           (Samples.page "BBBB") (Samples.page "CCCC") (Samples.page "DDDD")
           Samples.listening Samples.lampPlan Samples.openCover "CCCC"
           "data:audio/wav;base64,UklGRg" "Turn it clockwise."
           eq_refl eq_refl eq_refl eq_refl).
Defined.

(** X18.  When the clip is encoded but the page has no frame, or the
    session that [stopListening] closed over had no plan, the question is
    dropped without a word: no request is sent, nothing is spoken and the
    assistant text stays on ["Thinking..."]. *)
Theorem question_is_dropped dom0 dom1 w result :
  mediaRecorderRef w = Some {| recording := true |} ->
  truthy (captureFrame dom1) = None \/ repairPlan (session w) = None ->
  let w' :=
    run [(dom0, E_stopListening);
         (dom1, E_resolve (length (awaiting w)) (R_readerResult result))] w in
  assistantResponse (session w') = Some "Thinking..."
  /\ isListening (session w') = false
  /\ awaiting w' = awaiting w
  /\ spoken w' = spoken w.
Proof.
  intros Hrec H. unfold run. open_world w. subst.
  destruct H as [H | H]; subst; cbn [recording]; forward; split_tests;
    repeat split.
Qed.

Lemma question_is_dropped_witness :
  let w' :=
    run [(Samples.page "BBBB", E_stopListening);
         (Samples.blankPage,
          E_resolve 0 (R_readerResult "data:audio/wav;base64,UklGRg"))]
      Samples.listening in
  assistantResponse (session w') = Some "Thinking..."
  /\ isListening (session w') = false
  /\ awaiting w' = []
  /\ spoken w' = [].
Proof.
  apply (question_is_dropped (Samples.page "BBBB") Samples.blankPage
           Samples.listening "data:audio/wav;base64,UklGRg" eq_refl).
  left. reflexivity.
Defined.

(** ** Where the stream is *)

Lemma remove_nth_incl {A} (i : nat) (l : list A) (a : A) :
  In a (remove_nth i l) -> In a l.
Proof.
  revert i; induction l as [|h t IH]; intros i Hin.
  - destruct i; exact Hin.
  - destruct i as [|i']; simpl in Hin.
    + now right.
    + destruct Hin as [Heq | Hin]; [now left | right; eauto].
Qed.

Ltac old_request :=
  repeat match goal with
         | H : In _ (_ ++ _) |- _ => apply in_app_or in H; destruct H as [H | H]
         | H : In _ (remove_nth _ _) |- _ => apply remove_nth_incl in H
         | H : In _ [_] |- _ => destruct H as [H | []]; try discriminate H
         end.

Lemma step_keeps_stream_behind_plan dom ev w :
  browserEvent dom ev w -> streamBehindPlan w ->
  streamBehindPlan (step dom ev w).
Proof.
  unfold browserEvent, streamBehindPlan.
  intros (Hv & Hf & Hs) (Ha & Hp). open_world w. rewrite Hv in *.
  destruct ev; split_tests; (split; [|intros [Hn | (b & Hin)]]);
    try solve [ assumption
              | intros ? E; inversion E; subst; assumption
              | apply Hp; now left
              | now elim Hn
              | old_request; apply Hp; right; eauto
              | old_request; apply Hp; left; discriminate
              | discriminate
              | intros E; rewrite (Hf E) in *; discriminate
              | intros E; discriminate (Hf E)
              | old_request;
                first [ apply Hp; right; eauto
                      | intros E; discriminate (Hf E) ] ].
  (* what is left is the arrival of a plan: its request was parked *)
  apply Hp. right. exists base64. eapply nth_error_In; eassumption.
Qed.

Lemma run_keeps_stream_behind_plan trace :
  forall w,
    browserTrace trace w -> streamBehindPlan w ->
    streamBehindPlan (run trace w).
Proof.
  induction trace as [|[dom ev] rest IH]; intros w Ht Hw; simpl in *.
  - exact Hw.
  - destruct Ht as [Hev Hrest].
    apply IH; [exact Hrest | now apply step_keeps_stream_behind_plan].
Qed.

(** X21.  In a browser (the video element mounted, no frame without a
    stream on it, an audio track in every stream granted) the microphone
    control is never offered without a stream that has an audio track:
    whenever the page draws [StepCard], [startListening] finds the stream
    and starts a recording. *)
Theorem microphone_behind_the_control (trace : list (Dom * Event)) dom :
  browserTrace trace initialWorld ->
  videoRef dom = true ->
  let w := run trace initialWorld in
  offered (session w) E_startListening = true ->
  (exists stream audioTrack others,
     srcObject w = Some stream
     /\ getAudioTracks stream = audioTrack :: others)
  /\ mediaRecorderRef (step dom E_startListening w)
     = Some {| recording := true |}
  /\ audioChunksRef (step dom E_startListening w) = [].
Proof.
  intros Ht Hv w Hoff.
  assert (Hinv : streamBehindPlan w).
  { apply run_keeps_stream_behind_plan; [exact Ht|].
    split; [intros stream H; discriminate H|].
    intros [H | (b & [])]. now elim H. }
  destruct Hinv as [Ha Hp].
  unfold offered, stepCardRendered in Hoff.
  apply andb_true_iff in Hoff. destruct Hoff as [_ Hplan].
  assert (Hsrc : srcObject w <> None).
  { apply Hp. left. destruct (repairPlan (session w)); [discriminate|].
    discriminate Hplan. }
  destruct (srcObject w) as [stream|] eqn:Es; [|now elim Hsrc].
  specialize (Ha stream eq_refl).
  destruct (getAudioTracks stream) as [|audioTrack others] eqn:Et;
    [now elim Ha|].
  split; [exists stream, audioTrack, others; split; [reflexivity | exact Et]|].
  clearbody w. clear - Hv Es Et. open_world w. subst.
  forward. split; reflexivity.
Qed.

Lemma microphone_behind_the_control_witness :
  let w := run Samples.toGuide initialWorld in
  (exists stream audioTrack others,
     srcObject w = Some stream
     /\ getAudioTracks stream = audioTrack :: others)
  /\ mediaRecorderRef (step (Samples.page "BBBB") E_startListening w)
     = Some {| recording := true |}
  /\ audioChunksRef (step (Samples.page "BBBB") E_startListening w) = [].
Proof.
  apply (microphone_behind_the_control Samples.toGuide (Samples.page "BBBB")).
  - simpl. repeat split; try discriminate.
  - reflexivity.
  - reflexivity.
Defined.

